(** * go-satellite: TLE parsing, time system and frame conversions

    A shallow embedding of [helpers.go] and of the gravity-constant table
    of the go-satellite package, with the properties its specification
    states about them.

    Number model.  Go's [float64] is modelled by the real numbers: every
    value is finite and every operation is exact.  Rounding, overflow,
    signed zeros, infinities, NaN and therefore the result of a division
    by zero are outside the model.  Go's [int64] is modelled by [Z] with
    its wrap-around written out ([wrap64]).  Go strings are byte strings
    and are modelled by [string]; an [error] is modelled by its message,
    [nil] by [None]. *)

From Stdlib Require Import Reals Lra Lia ZArith String Ascii List Bool.
From Stdlib Require Import DecimalString.
Import ListNotations.

Open Scope R_scope.

(** ** The part of Go's [math] package the code uses *)

Module GoMath.

Definition float64 := R.

Definition Pi : float64 := PI.

Definition ltb (x y : float64) : bool := if Rlt_dec x y then true else false.
Definition gtb (x y : float64) : bool := if Rgt_dec x y then true else false.

(** Integer part towards zero, as in a Go conversion [int(x)]. *)
Definition trunc (x : float64) : Z :=
  if Rle_dec 0 x then Int_part x else (- Int_part (- x))%Z.

(** [math.Floor]. *)
Definition Floor (x : float64) : float64 := IZR (Int_part x).

(** [math.Mod x y]: the remainder [x - y * n] with [n] the quotient [x / y]
    rounded towards zero, so that the result has the sign of [x] and a
    magnitude below that of [y].  ([y = 0] gives NaN in Go; the code only
    calls it with the constants 360, 2*Pi and 86400.) *)
Definition Mod (x y : float64) : float64 := x - y * IZR (trunc (x / y)).

(** [math.Modf]: integer part and fractional part, both with the sign of
    the argument. *)
Definition Modf (x : float64) : float64 * float64 :=
  (IZR (trunc x), x - IZR (trunc x)).

Definition Sin : float64 -> float64 := sin.
Definition Cos : float64 -> float64 := cos.
Definition Atan : float64 -> float64 := atan.
Definition Asin : float64 -> float64 := asin.
Definition Sqrt : float64 -> float64 := sqrt.

End GoMath.

Import GoMath.

(** An [error] value is its message. *)
Definition error := string.

(** ** Constants of [helpers.go] *)

Definition TWOPI : float64 := Pi * 2.0.
Definition DEG2RAD : float64 := Pi / 180.0.
Definition RAD2DEG : float64 := 180.0 / Pi.
Definition XPDOTP : float64 := 1440.0 / (2.0 * Pi).

(** ** Data types of [helpers.go] *)

Record LatLong := mkLatLong { Latitude : float64; Longitude : float64 }.

Record LatLongAlt := mkLatLongAlt { LatLong_ : LatLong; AltitudeKm : float64 }.

Record Vector3 := mkVector3 { X : float64; Y : float64; Z_ : float64 }.

Record LookAngles := mkLookAngles { Az : float64; El : float64; Rg : float64 }.

Record JDay := mkJDay { Day : float64; Fraction : float64 }.

(** ** [LatLongDeg] *)

(** The longitude written to [deg.Longitude]: lines 308-313. *)
Definition wrapLongitude (lonRad : float64) : float64 :=
  let lon := Mod (lonRad / Pi * 180) 360 in
  if gtb lon 180 then 360 - lon
  else if ltb lon (-180) then 360 + lon
  else lon.

(** The named results [deg] and [err] start at their zero values; the
    longitude is written before the latitude is checked, so it is set on
    the error path too, while [deg.Latitude] stays 0 there. *)
Definition LatLongDeg (rad : LatLong) : LatLong * option error :=
  let lon := wrapLongitude (Longitude rad) in
  if ltb (Latitude rad) (- Pi / 2) || gtb (Latitude rad) (Pi / 2) then
    (mkLatLong 0 lon, Some "Latitude not within bounds -pi/2 to +pi/2"%string)
  else
    (mkLatLong (Latitude rad / Pi * 180) lon, None).

(** Two angles in degrees that differ by a whole number of turns. *)
Definition congruent360 (a b : R) : Prop := exists k : Z, a - b = 360 * IZR k.

(** ** Gravity constants *)

(** Holds variables that are dependent upon selected gravity model. *)
Record GravConst := mkGravConst {
  mu : float64; radiusearthkm : float64; xke : float64; tumin : float64;
  j2 : float64; j3 : float64; j4 : float64; j3oj2 : float64; f : float64 }.

(** The zero value of the struct, which the named result [grav] holds on
    entry. *)
Definition zeroGravConst : GravConst := mkGravConst 0 0 0 0 0 0 0 0 0.

(** The fields are assigned in source order; each [let] is one assignment
    and later ones read the earlier fields. *)
Definition getGravConst (name : string) : GravConst * option error :=
  if String.eqb name "wgs72old" then
    let mu := 398600.79964 in
    let radiusearthkm := 6378.135 in
    let xke := 0.0743669161 in
    let tumin := 1.0 / xke in
    let j2 := 0.001082616 in
    let j3 := -0.00000253881 in
    let j4 := -0.00000165597 in
    let j3oj2 := j3 / j2 in
    let f := 1 / 298.26 in
    (mkGravConst mu radiusearthkm xke tumin j2 j3 j4 j3oj2 f, None)
  else if String.eqb name "wgs72" then
    let mu := 398600.8 in
    let radiusearthkm := 6378.135 in
    let xke := 60.0 / Sqrt (radiusearthkm * radiusearthkm * radiusearthkm / mu) in
    let tumin := 1.0 / xke in
    let j2 := 0.001082616 in
    let j3 := -0.00000253881 in
    let j4 := -0.00000165597 in
    let j3oj2 := j3 / j2 in
    let f := 1 / 298.26 in
    (mkGravConst mu radiusearthkm xke tumin j2 j3 j4 j3oj2 f, None)
  else if String.eqb name "wgs84" then
    let mu := 398600.5 in
    let radiusearthkm := 6378.137 in
    let xke := 60.0 / Sqrt (radiusearthkm * radiusearthkm * radiusearthkm / mu) in
    let tumin := 1.0 / xke in
    let j2 := 0.00108262998905 in
    let j3 := -0.00000253215306 in
    let j4 := -0.00000161098761 in
    let j3oj2 := j3 / j2 in
    let f := 1 / 298.257223563 in
    (mkGravConst mu radiusearthkm xke tumin j2 j3 j4 j3oj2 f, None)
  else
    (zeroGravConst, Some (name ++ " is not a valid gravity model")%string).

(** ** The satellite record *)

(** Modelled from the spec: the declaration of the [Satellite] struct is
    not among the source files.  The record holds the fields that
    [helpers.go] reads and writes, with the types the assignments there
    give them (the two raw lines, the [Error] code, the gravity constants,
    catalog number and epoch year as [int64], the orbital elements as
    [float64], and the Julian epoch); the working fields of the
    propagator are left out. *)
Record Satellite := mkSatellite {
  Line1 : string; Line2 : string; Error : Z; Whichconst : GravConst;
  satnum : Z; epochyr : Z; epochdays : float64; ndot : float64;
  nddot : float64; bstar : float64; inclo : float64; nodeo : float64;
  ecco : float64; argpo : float64; mo : float64; no : float64;
  jdsatepoch : JDay }.

Definition zeroSatellite : Satellite :=
  mkSatellite EmptyString EmptyString 0 zeroGravConst 0 0 0 0 0 0 0 0 0 0 0 0
    (mkJDay 0 0).

(** Field assignments [sat.x = v]. *)

Definition set_Line1 (v : string) (s : Satellite) : Satellite :=
  mkSatellite v (Line2 s) (Error s) (Whichconst s) (satnum s) (epochyr s)
    (epochdays s) (ndot s) (nddot s) (bstar s) (inclo s) (nodeo s) (ecco s)
    (argpo s) (mo s) (no s) (jdsatepoch s).

Definition set_Line2 (v : string) (s : Satellite) : Satellite :=
  mkSatellite (Line1 s) v (Error s) (Whichconst s) (satnum s) (epochyr s)
    (epochdays s) (ndot s) (nddot s) (bstar s) (inclo s) (nodeo s) (ecco s)
    (argpo s) (mo s) (no s) (jdsatepoch s).

Definition set_Error (v : Z) (s : Satellite) : Satellite :=
  mkSatellite (Line1 s) (Line2 s) v (Whichconst s) (satnum s) (epochyr s)
    (epochdays s) (ndot s) (nddot s) (bstar s) (inclo s) (nodeo s) (ecco s)
    (argpo s) (mo s) (no s) (jdsatepoch s).

Definition set_Whichconst (v : GravConst) (s : Satellite) : Satellite :=
  mkSatellite (Line1 s) (Line2 s) (Error s) v (satnum s) (epochyr s)
    (epochdays s) (ndot s) (nddot s) (bstar s) (inclo s) (nodeo s) (ecco s)
    (argpo s) (mo s) (no s) (jdsatepoch s).

Definition set_satnum (v : Z) (s : Satellite) : Satellite :=
  mkSatellite (Line1 s) (Line2 s) (Error s) (Whichconst s) v (epochyr s)
    (epochdays s) (ndot s) (nddot s) (bstar s) (inclo s) (nodeo s) (ecco s)
    (argpo s) (mo s) (no s) (jdsatepoch s).

Definition set_epochyr (v : Z) (s : Satellite) : Satellite :=
  mkSatellite (Line1 s) (Line2 s) (Error s) (Whichconst s) (satnum s) v
    (epochdays s) (ndot s) (nddot s) (bstar s) (inclo s) (nodeo s) (ecco s)
    (argpo s) (mo s) (no s) (jdsatepoch s).

Definition set_epochdays (v : float64) (s : Satellite) : Satellite :=
  mkSatellite (Line1 s) (Line2 s) (Error s) (Whichconst s) (satnum s)
    (epochyr s) v (ndot s) (nddot s) (bstar s) (inclo s) (nodeo s) (ecco s)
    (argpo s) (mo s) (no s) (jdsatepoch s).

Definition set_ndot (v : float64) (s : Satellite) : Satellite :=
  mkSatellite (Line1 s) (Line2 s) (Error s) (Whichconst s) (satnum s)
    (epochyr s) (epochdays s) v (nddot s) (bstar s) (inclo s) (nodeo s)
    (ecco s) (argpo s) (mo s) (no s) (jdsatepoch s).

Definition set_nddot (v : float64) (s : Satellite) : Satellite :=
  mkSatellite (Line1 s) (Line2 s) (Error s) (Whichconst s) (satnum s)
    (epochyr s) (epochdays s) (ndot s) v (bstar s) (inclo s) (nodeo s)
    (ecco s) (argpo s) (mo s) (no s) (jdsatepoch s).

Definition set_bstar (v : float64) (s : Satellite) : Satellite :=
  mkSatellite (Line1 s) (Line2 s) (Error s) (Whichconst s) (satnum s)
    (epochyr s) (epochdays s) (ndot s) (nddot s) v (inclo s) (nodeo s)
    (ecco s) (argpo s) (mo s) (no s) (jdsatepoch s).

Definition set_inclo (v : float64) (s : Satellite) : Satellite :=
  mkSatellite (Line1 s) (Line2 s) (Error s) (Whichconst s) (satnum s)
    (epochyr s) (epochdays s) (ndot s) (nddot s) (bstar s) v (nodeo s)
    (ecco s) (argpo s) (mo s) (no s) (jdsatepoch s).

Definition set_nodeo (v : float64) (s : Satellite) : Satellite :=
  mkSatellite (Line1 s) (Line2 s) (Error s) (Whichconst s) (satnum s)
    (epochyr s) (epochdays s) (ndot s) (nddot s) (bstar s) (inclo s) v
    (ecco s) (argpo s) (mo s) (no s) (jdsatepoch s).

Definition set_ecco (v : float64) (s : Satellite) : Satellite :=
  mkSatellite (Line1 s) (Line2 s) (Error s) (Whichconst s) (satnum s)
    (epochyr s) (epochdays s) (ndot s) (nddot s) (bstar s) (inclo s)
    (nodeo s) v (argpo s) (mo s) (no s) (jdsatepoch s).

Definition set_argpo (v : float64) (s : Satellite) : Satellite :=
  mkSatellite (Line1 s) (Line2 s) (Error s) (Whichconst s) (satnum s)
    (epochyr s) (epochdays s) (ndot s) (nddot s) (bstar s) (inclo s)
    (nodeo s) (ecco s) v (mo s) (no s) (jdsatepoch s).

Definition set_mo (v : float64) (s : Satellite) : Satellite :=
  mkSatellite (Line1 s) (Line2 s) (Error s) (Whichconst s) (satnum s)
    (epochyr s) (epochdays s) (ndot s) (nddot s) (bstar s) (inclo s)
    (nodeo s) (ecco s) (argpo s) v (no s) (jdsatepoch s).

Definition set_no (v : float64) (s : Satellite) : Satellite :=
  mkSatellite (Line1 s) (Line2 s) (Error s) (Whichconst s) (satnum s)
    (epochyr s) (epochdays s) (ndot s) (nddot s) (bstar s) (inclo s)
    (nodeo s) (ecco s) (argpo s) (mo s) v (jdsatepoch s).

Definition set_jdsatepoch (v : JDay) (s : Satellite) : Satellite :=
  mkSatellite (Line1 s) (Line2 s) (Error s) (Whichconst s) (satnum s)
    (epochyr s) (epochdays s) (ndot s) (nddot s) (bstar s) (inclo s)
    (nodeo s) (ecco s) (argpo s) (mo s) (no s) v.

(** ** Strings *)

(** A slice [s[lo:hi]]; the code takes slices only after it has checked
    that the line has 69 bytes, so every slice is in range. *)
Definition slice (s : string) (lo hi : nat) : string :=
  substring lo (hi - lo) s.

(** [strings.Replace s old new n] for a one-byte [old] (the code always
    passes a single space): the first [n] occurrences are replaced, all
    of them when [n < 0]. *)
Fixpoint replaceFirst (s : string) (old : ascii) (new : string) (n : nat)
  : string :=
  match s with
  | EmptyString => EmptyString
  | String c s' =>
      match n with
      | O => s
      | S n' =>
          if Ascii.eqb c old then (new ++ replaceFirst s' old new n')%string
          else String c (replaceFirst s' old new n)
      end
  end.

Fixpoint replaceAll (s : string) (old : ascii) (new : string) : string :=
  match s with
  | EmptyString => EmptyString
  | String c s' =>
      if Ascii.eqb c old then (new ++ replaceAll s' old new)%string
      else String c (replaceAll s' old new)
  end.

Definition Replace (s : string) (old : ascii) (new : string) (n : Z) : string :=
  if (n <? 0)%Z then replaceAll s old new
  else replaceFirst s old new (Z.to_nat n).

(** The column text with every space deleted, and the number of spaces in
    it. *)
Definition stripSpaces (s : string) : string := replaceAll s " " EmptyString.

Fixpoint countSpaces (s : string) : nat :=
  match s with
  | EmptyString => O
  | String c s' => ((if Ascii.eqb c " " then 1 else 0) + countSpaces s')%nat
  end.

(** [%d] of a length. *)
Definition itoa (n : nat) : string := NilEmpty.string_of_uint (Nat.to_uint n).

(** ** Time system *)

(** The outcome of a call that can stop with a run-time panic.  The month
    loop is run with a bounded number of steps; [OutOfFuel] marks a run
    that has not finished within them. *)
Inductive outcome (A : Type) : Type :=
| Returns (a : A)
| Panics (msg : string)
| OutOfFuel.

Arguments Returns {A} a.
Arguments Panics {A} msg.
Arguments OutOfFuel {A}.

(** An array access [a[i]] on a fixed-size array: out of range is a
    run-time panic. *)
Definition index (a : list Z) (i : Z) : option Z :=
  if (i <? 0)%Z then None else nth_error a (Z.to_nat i).

Definition lmonthCommon : list Z :=
  [31; 28; 31; 30; 31; 30; 31; 31; 30; 31; 30; 31]%Z.

Definition lmonthLeap : list Z :=
  [31; 29; 31; 30; 31; 30; 31; 31; 30; 31; 30; 31]%Z.

(** The loop of [days2mdhms] on the state [(i, inttemp)].  The condition
    reads [lmonth[int(i-1)]] before it tests [i < 22]; the body reads the
    same entry again. *)
Fixpoint monthLoop (fuel : nat) (lmonth : list Z) (dayofyr i inttemp : float64)
  : outcome (float64 * float64) :=
  match fuel with
  | O => OutOfFuel
  | S fuel' =>
      match index lmonth (trunc (i - 1)) with
      | None => Panics "index out of range"
      | Some m =>
          if gtb dayofyr (inttemp + IZR m) && ltb i 22 then
            monthLoop fuel' lmonth dayofyr (i + 1) (inttemp + IZR m)
          else Returns (i, inttemp)
      end
  end.

(** The same loop on integers.  The loop only ever holds whole numbers in
    [dayofyr], [i] and [inttemp], and on those it runs as this one does
    ([monthLoop_integers] below). *)
Fixpoint monthLoopZ (fuel : nat) (lmonth : list Z) (dayofyr i inttemp : Z)
  : outcome (Z * Z) :=
  match fuel with
  | O => OutOfFuel
  | S fuel' =>
      match index lmonth (i - 1) with
      | None => Panics "index out of range"
      | Some m =>
          if (inttemp + m <? dayofyr)%Z && (i <? 22)%Z then
            monthLoopZ fuel' lmonth dayofyr (i + 1) (inttemp + m)
          else Returns (i, inttemp)
      end
  end.

(** The number of days that the month table of a year adds up to. *)
Definition yearDays (year : Z) : Z :=
  if (Z.rem year 4 =? 0)%Z then 366%Z else 365%Z.

(** Go's [%] on [int64] is the remainder of the truncated division. *)
Definition days2mdhms (year : Z) (epochDays : float64)
  : outcome (float64 * float64 * float64 * float64 * float64) :=
  let lmonth := if (Z.rem year 4 =? 0)%Z then lmonthLeap else lmonthCommon in
  let dayofyr := Floor epochDays in
  match monthLoop 22 lmonth dayofyr 1.0 0.0 with
  | Returns (i, inttemp) =>
      let mon := i in
      let day := dayofyr - inttemp in
      let temp := (epochDays - dayofyr) * 24.0 in
      let hr := Floor temp in
      let temp := (temp - hr) * 60.0 in
      let min := Floor temp in
      let sec := (temp - min) * 60.0 in
      Returns (mon, day, hr, min, sec)
  | Panics msg => Panics msg
  | OutOfFuel => OutOfFuel
  end.

Definition NewJDay (year mon day hr minute : Z) (sec : float64) : JDay :=
  let jd := 367.0 * IZR year
            - Floor (7 * (IZR year + Floor ((IZR mon + 9) / 12.0)) * 0.25)
            + Floor (275 * IZR mon / 9.0) + IZR day + 1721013.5 in
  let fr := (sec + IZR minute * 60.0 + IZR hr * 3600.0) / 86400.0 in
  mkJDay jd fr.

Definition Subtract (jd : JDay) (time : float64) : float64 :=
  Day jd + Fraction jd - time.

(** Calculate GMST from Julian date. *)
Definition ThetaG_JD (jday : float64) : float64 :=
  let UT := snd (Modf (jday + 0.5)) in
  let jday := jday - UT in
  let TU := (jday - 2451545.0) / 36525.0 in
  let GMST := 24110.54841 + TU * (8640184.812866 + TU * (0.093104 - TU * 6.2e-6)) in
  let GMST := Mod (GMST + 86400.0 * 1.00273790934 * UT) 86400.0 in
  2 * Pi * GMST / 86400.0.

(** ** Frame conversions *)

Definition LLAToECI (obsCoords : LatLongAlt) (jday : float64)
  (gravConst : GravConst) : Vector3 :=
  let theta := Mod (ThetaG_JD jday + Longitude (LatLong_ obsCoords)) TWOPI in
  let latSin := Sin (Latitude (LatLong_ obsCoords)) in
  let latCos := Cos (Latitude (LatLong_ obsCoords)) in
  let c := 1 / Sqrt (1 + f gravConst * (f gravConst - 2) * latSin * latSin) in
  let sq := c * (1 - f gravConst) * (1 - f gravConst) in
  let achcp := (radiusearthkm gravConst * c + AltitudeKm obsCoords) * latCos in
  mkVector3 (achcp * Cos theta) (achcp * Sin theta)
    ((radiusearthkm gravConst * sq + AltitudeKm obsCoords) * latSin).

Definition ECIToECEF (eciCoords : Vector3) (gmst : float64) : Vector3 :=
  mkVector3
    (X eciCoords * Cos gmst + Y eciCoords * Sin gmst)
    (X eciCoords * - Sin gmst + Y eciCoords * Cos gmst)
    (Z_ eciCoords).

(** The range vector from the observer to the satellite and its
    components in the observer's South/East/Zenith frame: lines 364-378
    of [ECIToLookAngles]. *)
Definition rangeVector (eciSat : Vector3) (obsCoords : LatLongAlt)
  (jday : float64) (gravConst : GravConst) : Vector3 :=
  let obsPos := LLAToECI obsCoords jday gravConst in
  mkVector3 (X eciSat - X obsPos) (Y eciSat - Y obsPos) (Z_ eciSat - Z_ obsPos).

Definition topocentric (r : Vector3) (obsCoords : LatLongAlt) (jday : float64)
  : float64 * float64 * float64 :=
  let theta := Mod (ThetaG_JD jday + Longitude (LatLong_ obsCoords)) (2 * Pi) in
  let rx := X r in
  let ry := Y r in
  let rz := Z_ r in
  let latSin := Sin (Latitude (LatLong_ obsCoords)) in
  let latCos := Cos (Latitude (LatLong_ obsCoords)) in
  let thetaSin := Sin theta in
  let thetaCos := Cos theta in
  let topS := latSin * thetaCos * rx + latSin * thetaSin * ry - latCos * rz in
  let topE := - thetaSin * rx + thetaCos * ry in
  let topZ := latCos * thetaCos * rx + latCos * thetaSin * ry + latSin * rz in
  (topS, topE, topZ).

(** Lines 380-388: each [let] on [az] is one of the two conditional
    updates of [lookAngles.Az], in source order. *)
Definition ECIToLookAngles (eciSat : Vector3) (obsCoords : LatLongAlt)
  (jday : float64) (gravConst : GravConst) : LookAngles :=
  let r := rangeVector eciSat obsCoords jday gravConst in
  let '(topS, topE, topZ) := topocentric r obsCoords jday in
  let az := Atan (- topE / topS) in
  let az := if gtb topS 0 then az + Pi else az in
  let az := if ltb az 0 then az + 2 * Pi else az in
  let rg := Sqrt (X r * X r + Y r * Y r + Z_ r * Z_ r) in
  let el := Asin (topZ / rg) in
  mkLookAngles az el rg.

(** ** The TLE parser *)

(** Go's [int64] addition wraps around. *)
Definition wrap64 (z : Z) : Z := ((z + 2 ^ 63) mod 2 ^ 64 - 2 ^ 63)%Z.

(** The century of a two-digit epoch year: lines 153-158 of
    [NewSatFromTLE]. *)
Definition epochYear (epochyr : Z) : Z :=
  if (epochyr <? 57)%Z then wrap64 (epochyr + 2000)
  else wrap64 (epochyr + 1900).

(** The fields of the record in the order in which [ParseTLE] parses
    them. *)
Inductive Field : Type :=
| Fsatnum | Fepochyr | Fepochdays | Fndot | Fnddot | Fbstar
| Finclo | Fnodeo | Fecco | Fargpo | Fmo | Fno.

Definition parseOrder : list Field :=
  [Fsatnum; Fepochyr; Fepochdays; Fndot; Fnddot; Fbstar;
   Finclo; Fnodeo; Fecco; Fargpo; Fmo; Fno].

(** The position of a field in the parse order. *)
Definition rank (fld : Field) : nat :=
  match fld with
  | Fsatnum => 0 | Fepochyr => 1 | Fepochdays => 2 | Fndot => 3
  | Fnddot => 4 | Fbstar => 5 | Finclo => 6 | Fnodeo => 7
  | Fecco => 8 | Fargpo => 9 | Fmo => 10 | Fno => 11
  end.

(** The column range that the error message of a field names. *)
Definition columns (fld : Field) : string :=
  match fld with
  | Fsatnum => "line1[2:7]" | Fepochyr => "line1[18:20]"
  | Fepochdays => "line1[20:32]" | Fndot => "line1[33:43]"
  | Fnddot => "line1[44:52]" | Fbstar => "line1[53:61]"
  | Finclo => "line2[8:16]" | Fnodeo => "line2[17:25]"
  | Fecco => "line2[26:33]" | Fargpo => "line2[34:42]"
  | Fmo => "line2[43:51]" | Fno => "line2[52:63]"
  end.

(** A field of the record still holds its zero value. *)
Definition isZero (fld : Field) (sat : Satellite) : Prop :=
  match fld with
  | Fsatnum => satnum sat = 0%Z | Fepochyr => epochyr sat = 0%Z
  | Fepochdays => epochdays sat = 0 | Fndot => ndot sat = 0
  | Fnddot => nddot sat = 0 | Fbstar => bstar sat = 0
  | Finclo => inclo sat = 0 | Fnodeo => nodeo sat = 0
  | Fecco => ecco sat = 0 | Fargpo => argpo sat = 0
  | Fmo => mo sat = 0 | Fno => no sat = 0
  end.

Section Parser.

(** The library calls of the parser.  [strconv.ParseFloat s 64] and
    [strconv.ParseInt s 10 0] return a value together with an error, and a
    value comes with a failure too; [strings.TrimSpace] returns the
    trimmed string.  [sgp4init] is the initialiser of the propagator,
    which works on the record in place. *)
Variable strconv_ParseFloat : string -> float64 * option error.
Variable strconv_ParseInt : string -> Z * option error.
Variable strings_TrimSpace : string -> string.
Variable sgp4init : string -> float64 -> Satellite -> Satellite.

(** Parses a string into a float64 value. *)
Definition parseFloat (strIn : string) : float64 * option error :=
  let strIn := Replace strIn " " "0" (-1) in
  strconv_ParseFloat strIn.

(** Parses a string into a int64 value. *)
Definition parseInt (strIn : string) : Z * option error :=
  strconv_ParseInt strIn.

(** One step [sat.x, err = parse(...); if err != nil { err = fmt.Errorf(msg
    + "%v", err); return }]: the field is assigned whatever the parse
    returned, and a failure ends the call with the record as it stands. *)
Definition parseField {A : Type} (r : A * option error)
  (set : A -> Satellite -> Satellite) (msg : string) (sat : Satellite)
  (k : Satellite -> Satellite * option error) : Satellite * option error :=
  let sat := set (fst r) sat in
  match snd r with
  | Some e => (sat, Some (msg ++ e)%string)
  | None => k sat
  end.

(** The text that each field hands to its parser. *)
Definition fieldText (fld : Field) (line1 line2 : string) : string :=
  match fld with
  | Fsatnum => strings_TrimSpace (slice line1 2 7)
  | Fepochyr => slice line1 18 20
  | Fepochdays => slice line1 20 32
  | Fndot => Replace (slice line1 33 43) " " EmptyString 2
  | Fnddot =>
      Replace (slice line1 44 45 ++ "." ++ slice line1 45 50 ++ "e"
               ++ slice line1 50 52) " " EmptyString 2
  | Fbstar =>
      Replace (slice line1 53 54 ++ "." ++ slice line1 54 59 ++ "e"
               ++ slice line1 59 61) " " EmptyString 2
  | Finclo => Replace (slice line2 8 16) " " EmptyString 2
  | Fnodeo => Replace (slice line2 17 25) " " EmptyString 2
  | Fecco => ("." ++ slice line2 26 33)%string
  | Fargpo => Replace (slice line2 34 42) " " EmptyString 2
  | Fmo => Replace (slice line2 43 51) " " EmptyString 2
  | Fno => Replace (slice line2 52 63) " " EmptyString 2
  end.

(** The error, if any, of parsing one field on its own. *)
Definition fieldError (fld : Field) (line1 line2 : string) : option error :=
  match fld with
  | Fsatnum | Fepochyr => snd (parseInt (fieldText fld line1 line2))
  | _ => snd (parseFloat (fieldText fld line1 line2))
  end.

(** Parses a two line element dataset into a Satellite struct. *)
Definition ParseTLE (line1 line2 gravconst : string)
  : Satellite * option error :=
  let sat := zeroSatellite in
  if negb (String.length line1 =? 69)%nat then
    (sat, Some ("Line1 length should be 69 but was "
                ++ itoa (String.length line1))%string)
  else if negb (String.length line2 =? 69)%nat then
    (sat, Some ("Line2 length should be 69 but was "
                ++ itoa (String.length line2))%string)
  else
  let sat := set_Line1 line1 sat in
  let sat := set_Line2 line2 sat in
  let sat := set_Error 0%Z sat in
  parseField (getGravConst gravconst) set_Whichconst
    "Error on getting gravconst: " sat (fun sat =>
  parseField (parseInt (strings_TrimSpace (slice line1 2 7))) set_satnum
    "Error on parsing line1[2:7]: " sat (fun sat =>
  parseField (parseInt (slice line1 18 20)) set_epochyr
    "Error on parsing line1[18:20]: " sat (fun sat =>
  parseField (parseFloat (slice line1 20 32)) set_epochdays
    "Error on parsing line1[20:32]: " sat (fun sat =>
  parseField (parseFloat (Replace (slice line1 33 43) " " EmptyString 2))
    set_ndot "Error on parsing line1[33:43]: " sat (fun sat =>
  parseField
    (parseFloat (Replace (slice line1 44 45 ++ "." ++ slice line1 45 50 ++ "e"
                          ++ slice line1 50 52) " " EmptyString 2))
    set_nddot "Error on parsing line1[44:52]: " sat (fun sat =>
  parseField
    (parseFloat (Replace (slice line1 53 54 ++ "." ++ slice line1 54 59 ++ "e"
                          ++ slice line1 59 61) " " EmptyString 2))
    set_bstar "Error on parsing line1[53:61]: " sat (fun sat =>
  parseField (parseFloat (Replace (slice line2 8 16) " " EmptyString 2))
    set_inclo "Error on parsing line2[8:16]: " sat (fun sat =>
  parseField (parseFloat (Replace (slice line2 17 25) " " EmptyString 2))
    set_nodeo "Error on parsing line2[17:25]: " sat (fun sat =>
  parseField (parseFloat ("." ++ slice line2 26 33)) set_ecco
    "Error on parsing line2[26:33]: " sat (fun sat =>
  parseField (parseFloat (Replace (slice line2 34 42) " " EmptyString 2))
    set_argpo "Error on parsing line2[34:42]: " sat (fun sat =>
  parseField (parseFloat (Replace (slice line2 43 51) " " EmptyString 2))
    set_mo "Error on parsing line2[43:51]: " sat (fun sat =>
  parseField (parseFloat (Replace (slice line2 52 63) " " EmptyString 2))
    set_no "Error on parsing line2[52:63]: " sat (fun sat =>
  (sat, None)))))))))))))).

(** Converts a two line element data set into a Satellite struct and runs
    sgp4init.  [int(year)] is the identity on a 64-bit [int]; the other
    conversions to [int] drop the fraction. *)
Definition NewSatFromTLE (line1 line2 gravconst : string)
  : outcome (Satellite * option error) :=
  let '(sat, err) := ParseTLE line1 line2 gravconst in
  match err with
  | Some e => Returns (sat, Some e)
  | None =>
      let opsmode := "i"%string in
      let sat := set_no (no sat / XPDOTP) sat in
      let sat := set_ndot (ndot sat / (XPDOTP * 1440.0)) sat in
      let sat := set_nddot (nddot sat / (XPDOTP * 1440.0 * 1440)) sat in
      let sat := set_inclo (inclo sat * DEG2RAD) sat in
      let sat := set_nodeo (nodeo sat * DEG2RAD) sat in
      let sat := set_argpo (argpo sat * DEG2RAD) sat in
      let sat := set_mo (mo sat * DEG2RAD) sat in
      let year := epochYear (epochyr sat) in
      match days2mdhms year (epochdays sat) with
      | Returns (mon, day, hr, min, sec) =>
          let sat :=
            set_jdsatepoch
              (NewJDay year (trunc mon) (trunc day) (trunc hr) (trunc min) sec)
              sat in
          Returns (sgp4init opsmode (Subtract (jdsatepoch sat) 2433281.5) sat,
                   None)
      | Panics msg => Panics msg
      | OutOfFuel => OutOfFuel
      end
  end.

End Parser.

(** ** A decimal reading of the library calls

    Concrete runs need concrete library functions.  The ones below read
    the plain decimal forms of [strconv]: an optional sign, digits with an
    optional point, and an optional decimal exponent for a float; an
    optional sign and digits for an integer.  Any other text is reported
    as a syntax error.  The value of a float is the number that the text
    denotes. *)

Module Decimal.

Definition isDigit (c : ascii) : bool :=
  ((48 <=? nat_of_ascii c) && (nat_of_ascii c <=? 57))%nat.

Definition digitVal (c : ascii) : Z := (Z.of_nat (nat_of_ascii c) - 48)%Z.

(** Reads a run of digits: the value read so far, the number of digits
    read and the rest of the text. *)
Fixpoint readDigits (s : string) (acc : Z) (n : nat) : Z * nat * string :=
  match s with
  | String c s' =>
      if isDigit c then readDigits s' (10 * acc + digitVal c)%Z (S n)
      else (acc, n, s)
  | EmptyString => (acc, n, s)
  end.

(** An optional sign; [true] is a minus. *)
Definition readSign (s : string) : bool * string :=
  match s with
  | String c s' =>
      if Ascii.eqb c "+" then (false, s')
      else if Ascii.eqb c "-" then (true, s')
      else (false, s)
  | EmptyString => (false, s)
  end.

(** A decimal text as a pair [(m, e)] that stands for [m * 10 ^ e]. *)
Definition readDecimal (s : string) : option (Z * Z) :=
  let '(neg, s) := readSign s in
  let '(ip, ni, s) := readDigits s 0%Z 0%nat in
  let '(m, nf, s) :=
    match s with
    | String c s' =>
        if Ascii.eqb c "." then readDigits s' ip 0%nat else (ip, 0%nat, s)
    | EmptyString => (ip, 0%nat, s)
    end in
  if (ni + nf =? 0)%nat then None
  else
    let m := if neg : bool then (- m)%Z else m in
    match s with
    | EmptyString => Some (m, (- Z.of_nat nf)%Z)
    | String c s' =>
        if Ascii.eqb c "e" || Ascii.eqb c "E" then
          let '(eneg, s'') := readSign s' in
          let '(ev, ne, rest) := readDigits s'' 0%Z 0%nat in
          match ne, rest with
          | S _, EmptyString =>
              Some (m, ((if eneg : bool then - ev else ev) - Z.of_nat nf)%Z)
          | _, _ => None
          end
        else None
    end.

Definition toR (d : Z * Z) : float64 :=
  let '(m, e) := d in
  if (0 <=? e)%Z then IZR m * IZR (10 ^ e) else IZR m / IZR (10 ^ (- e)).

Definition quote (s : string) : string :=
  String (ascii_of_nat 34) (s ++ String (ascii_of_nat 34) EmptyString).

Definition ParseFloat (s : string) : float64 * option error :=
  match readDecimal s with
  | Some d => (toR d, None)
  | None =>
      (0, Some ("strconv.ParseFloat: parsing " ++ quote s
                ++ ": invalid syntax")%string)
  end.

Definition ParseInt (s : string) : Z * option error :=
  let '(neg, r) := readSign s in
  let '(v, n, rest) := readDigits r 0%Z 0%nat in
  match n, rest with
  | S _, EmptyString =>
      let v := if neg : bool then (- v)%Z else v in
      if (v <? - 2 ^ 63)%Z then
        ((- 2 ^ 63)%Z,
         Some ("strconv.ParseInt: parsing " ++ quote s
               ++ ": value out of range")%string)
      else if (2 ^ 63 - 1 <? v)%Z then
        ((2 ^ 63 - 1)%Z,
         Some ("strconv.ParseInt: parsing " ++ quote s
               ++ ": value out of range")%string)
      else (v, None)
  | _, _ =>
      (0%Z, Some ("strconv.ParseInt: parsing " ++ quote s
                  ++ ": invalid syntax")%string)
  end.

Definition isSpace (c : ascii) : bool :=
  let n := nat_of_ascii c in
  ((9 <=? n) && (n <=? 13) || (n =? 32))%nat.

Fixpoint trimLeft (s : string) : string :=
  match s with
  | String c s' => if isSpace c then trimLeft s' else s
  | EmptyString => s
  end.

Fixpoint trimRight (s : string) : string :=
  match s with
  | EmptyString => EmptyString
  | String c s' =>
      match trimRight s' with
      | EmptyString => if isSpace c then EmptyString else String c EmptyString
      | t => String c t
      end
  end.

(** [strings.TrimSpace] on text whose white space is ASCII. *)
Definition TrimSpace (s : string) : string := trimRight (trimLeft s).

(** A stand-in for the propagator's initialiser that leaves the record as
    it is. *)
Definition sgp4init (opsmode : string) (epoch : float64) (sat : Satellite)
  : Satellite := sat.

End Decimal.

(** ** Sample element sets *)

(** A published element set of the ISS (catalog number 25544). *)
Definition issLine1 : string :=
  "1 25544U 98067A   08264.51782528 -.00002182  00000-0 -11606-4 0  2927".

Definition issLine2 : string :=
  "2 25544  51.6416 247.4627 0006703 130.5360 325.0288 15.72125391563537".

(** The same first line with columns [33,43) holding a digit and nine
    spaces. *)
Definition spacedLine1 : string :=
  "1 25544U 98067A   08264.51782528 1           00000-0 -11606-4 0  2927".

(** The same first line with letters in the epoch-year columns [18,20). *)
Definition badYearLine1 : string :=
  "1 25544U 98067A   XX264.51782528 -.00002182  00000-0 -11606-4 0  2927".

(** The same first line with epoch year 01 and day of year 366. *)
Definition lateDayLine1 : string :=
  "1 25544U 98067A   01366.00000000 -.00002182  00000-0 -11606-4 0  2927".

(** The failure that the decimal reading reports for those two letters. *)
Definition badYearCause : error :=
  ("strconv.ParseInt: parsing " ++ Decimal.quote "XX" ++ ": invalid syntax")%string.

(** The record that [ParseTLE] builds from that line under the decimal
    reading. *)
Definition lateDayParsed : Satellite :=
  fst (ParseTLE Decimal.ParseFloat Decimal.ParseInt Decimal.TrimSpace
         lateDayLine1 issLine2 "wgs72").

(** The record that [ParseTLE] builds from the ISS element set under the
    decimal reading. *)
Definition issParsed : Satellite :=
  fst (ParseTLE Decimal.ParseFloat Decimal.ParseInt Decimal.TrimSpace
         issLine1 issLine2 "wgs72").

(** ** The rest of [helpers.go] *)

Definition NewLatLongAlt (latitudeDeg longitudeDeg altitudeKm : float64)
  : LatLongAlt :=
  mkLatLongAlt
    (mkLatLong (DEG2RAD * latitudeDeg) (DEG2RAD * longitudeDeg)) altitudeKm.


Definition Single (jd : JDay) : float64 := Day jd + Fraction jd.

(** The angle, in radians, that [gstime] reduces modulo 2*pi. *)
Definition gstimeAngle (jdut1 : float64) : float64 :=
  let tut1 := (jdut1 - 2451545.0) / 36525.0 in
  let temp := - 6.2e-6 * tut1 * tut1 * tut1 + 0.093104 * tut1 * tut1
              + (876600.0 * 3600 + 8640184.812866) * tut1 + 67310.54841 in
  temp * DEG2RAD / 240.0.

(** this function finds the greenwich sidereal time (iau-82) *)
Definition gstime (jdut1 : float64) : float64 :=
  let tut1 := (jdut1 - 2451545.0) / 36525.0 in
  let temp := - 6.2e-6 * tut1 * tut1 * tut1 + 0.093104 * tut1 * tut1
              + (876600.0 * 3600 + 8640184.812866) * tut1 + 67310.54841 in
  let temp := Mod (temp * DEG2RAD / 240.0) TWOPI in
  if ltb temp 0.0 then temp + TWOPI else temp.

(** Calc GST given year, month, day, hour, minute and second *)
Definition GSTimeFromDate (year mon day hr min : Z) (sec : float64) : float64 :=
  let jDay := NewJDay year mon day hr min sec in
  gstime (Single jDay).

(** [math.Atan2 y x] on finite arguments: the angle of the point [(x, y)]
    in (-pi, pi].  (With a zero [y] and a negative [x] Go tells +pi from
    -pi by the sign of the zero; the model has one zero and gives +pi.) *)
Definition Atan2 (y x : float64) : float64 :=
  if gtb x 0 then Atan (y / x)
  else if ltb x 0 then
    if ltb y 0 then Atan (y / x) - Pi else Atan (y / x) + Pi
  else if gtb y 0 then Pi / 2
  else if ltb y 0 then - Pi / 2
  else 0.

(** [math.Pow x n] for a whole exponent (the code only squares). *)
Definition Pow (x : float64) (n : nat) : float64 := x ^ n.

(** The loop of [ECIToLLA]: [n] rounds of the oblate-Earth correction on
    the state [(C, latitude)]. *)
Fixpoint oblateFix (n : nat) (z sqx2y2 a e2 C latitude : float64)
  : float64 * float64 :=
  match n with
  | O => (C, latitude)
  | S n' =>
      let C := 1 / Sqrt (1 - e2 * (Sin latitude * Sin latitude)) in
      let latitude := Atan2 (z + a * C * e2 * Sin latitude) sqx2y2 in
      oblateFix n' z sqx2y2 a e2 C latitude
  end.

(** Convert Earth Centered Inertial coordinated into equivalent latitude,
    longitude, altitude and velocity.  The results are [altitude],
    [velocity] and [ret], in that order. *)
Definition ECIToLLA (eciCoords : Vector3) (gmst : float64)
  : float64 * float64 * LatLong :=
  let a := 6378.137 in
  let b := 6356.7523142 in
  let f := (a - b) / a in
  let e2 := 2 * f - Pow f 2 in
  let sqx2y2 := Sqrt (Pow (X eciCoords) 2 + Pow (Y eciCoords) 2) in
  let longitude := Atan2 (Y eciCoords) (X eciCoords) - gmst in
  let latitude := Atan2 (Z_ eciCoords) sqx2y2 in
  let '(C, latitude) :=
    oblateFix 20 (Z_ eciCoords) sqx2y2 a e2 0.0 latitude in
  let altitude := sqx2y2 / Cos latitude - a * C in
  let velocity := Sqrt (398600.4418 / (altitude + 6378.137)) in
  (altitude, velocity, mkLatLong latitude longitude).

(** ** Vocabulary for the properties of the time system and the parser *)

(** The month table that [days2mdhms] uses for a year. *)
Definition monthTable (year : Z) : list Z :=
  if (Z.rem year 4 =? 0)%Z then lmonthLeap else lmonthCommon.

(** The clock time that [days2mdhms] reads off the fraction of the day:
    lines 229-235. *)
Definition dayClock (epochDays : float64) : float64 * float64 * float64 :=
  let dayofyr := Floor epochDays in
  let temp := (epochDays - dayofyr) * 24.0 in
  let hr := Floor temp in
  let temp := (temp - hr) * 60.0 in
  let min := Floor temp in
  let sec := (temp - min) * 60.0 in
  (hr, min, sec).

(** The days of the first [k] months of a table. *)
Definition cumDays (lmonth : list Z) (k : nat) : Z :=
  fold_left Z.add (firstn k lmonth) 0%Z.

(** The Gregorian leap-year rule. *)
Definition gregorianLeap (year : Z) : Prop :=
  (year mod 4 = 0 /\ (year mod 100 <> 0 \/ year mod 400 = 0))%Z.

(** The seven unit conversions of [NewSatFromTLE], lines 144-151, in
    source order. *)
Definition convertUnits (sat : Satellite) : Satellite :=
  let sat := set_no (no sat / XPDOTP) sat in
  let sat := set_ndot (ndot sat / (XPDOTP * 1440.0)) sat in
  let sat := set_nddot (nddot sat / (XPDOTP * 1440.0 * 1440)) sat in
  let sat := set_inclo (inclo sat * DEG2RAD) sat in
  let sat := set_nodeo (nodeo sat * DEG2RAD) sat in
  let sat := set_argpo (argpo sat * DEG2RAD) sat in
  set_mo (mo sat * DEG2RAD) sat.

(** The record that a parse builds when every step succeeds: the two
    lines, the gravity constants and the value of each field's text. *)
Definition parsedRecord (atof : string -> float64 * option error)
  (atoi : string -> Z * option error) (trim : string -> string)
  (line1 line2 gravconst : string) : Satellite :=
  let int_ fld := fst (parseInt atoi (fieldText trim fld line1 line2)) in
  let float_ fld := fst (parseFloat atof (fieldText trim fld line1 line2)) in
  mkSatellite line1 line2 0%Z (fst (getGravConst gravconst))
    (int_ Fsatnum) (int_ Fepochyr) (float_ Fepochdays) (float_ Fndot)
    (float_ Fnddot) (float_ Fbstar) (float_ Finclo) (float_ Fnodeo)
    (float_ Fecco) (float_ Fargpo) (float_ Fmo) (float_ Fno) (mkJDay 0 0).

(** Sample inputs for the properties below. *)
Definition londonDeg : LatLongAlt := NewLatLongAlt 51.5 (- 0.1) 0.

Definition equatorObserver : LatLongAlt := mkLatLongAlt (mkLatLong 0 0) 0.

(** * Properties *)

(** ** Comparisons, integer parts and remainders *)

Lemma ltb_true (x y : R) : ltb x y = true <-> x < y.
Proof.
  unfold ltb; destruct (Rlt_dec x y); split; intros; auto; discriminate.
Qed.

Lemma ltb_false (x y : R) : ltb x y = false <-> y <= x.
Proof.
  unfold ltb; destruct (Rlt_dec x y); split; intros; auto; try lra; discriminate.
Qed.

Lemma gtb_true (x y : R) : gtb x y = true <-> y < x.
Proof.
  unfold gtb; destruct (Rgt_dec x y); split; intros; auto; try lra; discriminate.
Qed.

Lemma gtb_false (x y : R) : gtb x y = false <-> x <= y.
Proof.
  unfold gtb; destruct (Rgt_dec x y); split; intros; auto; try lra; discriminate.
Qed.

Lemma Int_part_bounds (x : R) : IZR (Int_part x) <= x < IZR (Int_part x) + 1.
Proof. destruct (base_Int_part x); lra. Qed.

Lemma Int_part_unique (x : R) (z : Z) : IZR z <= x < IZR z + 1 -> Int_part x = z.
Proof. intros H; symmetry; apply Int_part_spec; lra. Qed.

Lemma Int_part_IZR (z : Z) : Int_part (IZR z) = z.
Proof. apply Int_part_unique; lra. Qed.

Lemma trunc_nonneg (x : R) :
  0 <= x -> IZR (trunc x) <= x < IZR (trunc x) + 1.
Proof.
  intros Hx; unfold trunc; destruct (Rle_dec 0 x); [|lra].
  apply Int_part_bounds.
Qed.

Lemma trunc_neg (x : R) :
  x < 0 -> IZR (trunc x) - 1 < x <= IZR (trunc x).
Proof.
  intros Hx; unfold trunc; destruct (Rle_dec 0 x); [lra|].
  rewrite opp_IZR; pose proof (Int_part_bounds (- x)); lra.
Qed.

Lemma trunc_unique_nonneg (x : R) (z : Z) :
  0 <= x -> IZR z <= x < IZR z + 1 -> trunc x = z.
Proof.
  intros Hx H; unfold trunc; destruct (Rle_dec 0 x); [|lra].
  now apply Int_part_unique.
Qed.

Lemma trunc_unique_neg (x : R) (z : Z) :
  x < 0 -> IZR z - 1 < x <= IZR z -> trunc x = z.
Proof.
  intros Hx H; unfold trunc; destruct (Rle_dec 0 x); [lra|].
  rewrite (Int_part_unique (- x) (- z)); [lia|].
  rewrite opp_IZR; lra.
Qed.

Lemma trunc_IZR (z : Z) : trunc (IZR z) = z.
Proof.
  destruct (Rle_dec 0 (IZR z)).
  - apply trunc_unique_nonneg; lra.
  - apply trunc_unique_neg; lra.
Qed.

(** The remainder differs from its argument by a whole multiple of the
    modulus. *)
Lemma Mod_multiple (x y : R) : exists k : Z, Mod x y = x - y * IZR k.
Proof. now exists (trunc (x / y)). Qed.

(** For a positive modulus the remainder has the sign of the argument and
    stays below the modulus. *)
Lemma Mod_bounds (x y : R) :
  0 < y -> (0 <= x -> 0 <= Mod x y < y) /\ (x <= 0 -> - y < Mod x y <= 0).
Proof.
  intros Hy; unfold Mod.
  assert (Hq : x = y * (x / y)) by (field; lra).
  split; intros Hx.
  - assert (H0 : 0 <= x / y).
    { unfold Rdiv. assert (0 < / y) by now apply Rinv_0_lt_compat. nra. }
    pose proof (trunc_nonneg _ H0) as [H1 H2].
    split; nra.
  - destruct (Req_dec x 0) as [->|Hne].
    + unfold Rdiv; rewrite Rmult_0_l, trunc_IZR; lra.
    + assert (H0 : x / y < 0).
      { unfold Rdiv. assert (0 < / y) by now apply Rinv_0_lt_compat. nra. }
      pose proof (trunc_neg _ H0) as [H1 H2].
      split; nra.
Qed.

Lemma Mod_eq (x y : R) (k : Z) :
  0 < y -> 0 <= x -> IZR k <= x / y < IZR k + 1 -> Mod x y = x - y * IZR k.
Proof.
  intros Hy Hx Hk; unfold Mod.
  rewrite (trunc_unique_nonneg (x / y) k); auto.
  unfold Rdiv. assert (0 < / y) by now apply Rinv_0_lt_compat. nra.
Qed.

Lemma Mod_eq_neg (x y : R) (k : Z) :
  0 < y -> x < 0 -> IZR k - 1 < x / y <= IZR k -> Mod x y = x - y * IZR k.
Proof.
  intros Hy Hx Hk; unfold Mod.
  rewrite (trunc_unique_neg (x / y) k); auto.
  unfold Rdiv. assert (0 < / y) by now apply Rinv_0_lt_compat. nra.
Qed.

(** ** Degrees conversion *)

Lemma Pi_pos : 0 < Pi.
Proof. exact PI_RGT_0. Qed.

(** The wrapped longitude always lies in the closed interval
    [-180, 180]. *)
Lemma wrapLongitude_range (lonRad : R) : -180 <= wrapLongitude lonRad <= 180.
Proof.
  unfold wrapLongitude.
  set (x := lonRad / Pi * 180).
  assert (Hb : -360 < Mod x 360 < 360).
  { destruct (Mod_bounds x 360) as [Hp Hn]; [lra|].
    destruct (Rle_dec 0 x); [specialize (Hp ltac:(lra)) | specialize (Hn ltac:(lra))]; lra. }
  destruct (gtb (Mod x 360) 180) eqn:Hg.
  - apply gtb_true in Hg; lra.
  - apply gtb_false in Hg.
    destruct (ltb (Mod x 360) (-180)) eqn:Hl.
    + apply ltb_true in Hl; lra.
    + apply ltb_false in Hl; lra.
Qed.

(** Outside the branch for a remainder above 180 the wrapped longitude is
    the input, in degrees, up to whole turns. *)
Lemma wrapLongitude_congruent (lonRad : R) :
  Mod (lonRad / Pi * 180) 360 <= 180 ->
  congruent360 (wrapLongitude lonRad) (lonRad / Pi * 180).
Proof.
  unfold wrapLongitude, congruent360.
  set (x := lonRad / Pi * 180); intros Hle.
  destruct (Mod_multiple x 360) as [k Hk].
  destruct (gtb (Mod x 360) 180) eqn:Hg.
  - apply gtb_true in Hg; lra.
  - destruct (ltb (Mod x 360) (-180)).
    + exists (1 - k)%Z. rewrite minus_IZR. lra.
    + exists (- k)%Z. rewrite opp_IZR. lra.
Qed.

Lemma wrapLongitude_3Pi : wrapLongitude (3 * Pi) = 180.
Proof.
  unfold wrapLongitude.
  assert (Hx : 3 * Pi / Pi * 180 = 540) by (unfold Pi; field; apply PI_neq0).
  rewrite Hx.
  rewrite (Mod_eq 540 360 1) by lra.
  replace (540 - 360 * 1) with 180 by lra.
  destruct (gtb 180 180) eqn:Hg; [apply gtb_true in Hg; lra|].
  destruct (ltb 180 (-180)) eqn:Hl; [apply ltb_true in Hl; lra|].
  reflexivity.
Qed.

Lemma wrapLongitude_minusPi : wrapLongitude (- Pi) = -180.
Proof.
  unfold wrapLongitude.
  assert (Hx : - Pi / Pi * 180 = -180) by (unfold Pi; field; apply PI_neq0).
  rewrite Hx.
  rewrite (Mod_eq_neg (-180) 360 0) by lra.
  replace (-180 - 360 * 0) with (-180) by lra.
  destruct (gtb (-180) 180) eqn:Hg; [apply gtb_true in Hg; lra|].
  destruct (ltb (-180) (-180)) eqn:Hl; [apply ltb_true in Hl; lra|].
  reflexivity.
Qed.

Lemma wrapLongitude_270 : wrapLongitude (3 * Pi / 2) = 90.
Proof.
  unfold wrapLongitude.
  assert (Hx : 3 * Pi / 2 / Pi * 180 = 270) by (unfold Pi; field; apply PI_neq0).
  rewrite Hx.
  rewrite (Mod_eq 270 360 0) by lra.
  replace (270 - 360 * 0) with 270 by lra.
  destruct (gtb 270 180) eqn:Hg; [lra|].
  apply gtb_false in Hg; lra.
Qed.

Lemma latitude_check_passes (lat : R) :
  - Pi / 2 <= lat <= Pi / 2 ->
  ltb lat (- Pi / 2) || gtb lat (Pi / 2) = false.
Proof.
  intros [H1 H2]. apply orb_false_iff; split.
  - apply ltb_false; lra.
  - apply gtb_false; lra.
Qed.

Lemma latitude_check_fails (lat : R) :
  lat < - Pi / 2 \/ Pi / 2 < lat ->
  ltb lat (- Pi / 2) || gtb lat (Pi / 2) = true.
Proof.
  intros [H|H]; apply orb_true_iff; [left; now apply ltb_true | right; now apply gtb_true].
Qed.

(** C1, as the code has it.  For a latitude within [-pi/2, pi/2],
    [LatLongDeg] returns without an error a longitude in the closed
    interval [-180, 180]; the longitude is congruent modulo 360 to the
    input longitude in degrees whenever the remainder of that value by 360
    is at most 180; and a longitude of 3*pi radians gives 180. *)
Theorem LatLongDeg_longitude (rad : LatLong) :
  - Pi / 2 <= Latitude rad <= Pi / 2 ->
  snd (LatLongDeg rad) = None /\
  -180 <= Longitude (fst (LatLongDeg rad)) <= 180 /\
  (Mod (Longitude rad / Pi * 180) 360 <= 180 ->
   congruent360 (Longitude (fst (LatLongDeg rad)))
     (Longitude rad / Pi * 180)) /\
  (Longitude rad = 3 * Pi -> Longitude (fst (LatLongDeg rad)) = 180).
Proof.
  intros Hlat. unfold LatLongDeg.
  rewrite (latitude_check_passes _ Hlat); cbn [fst snd Longitude].
  split; [reflexivity|].
  split; [apply wrapLongitude_range|].
  split; [apply wrapLongitude_congruent|].
  intros ->; apply wrapLongitude_3Pi.
Qed.

Lemma LatLongDeg_longitude_witness :
  - Pi / 2 <= Latitude (mkLatLong 0 (3 * Pi)) <= Pi / 2 /\
  snd (LatLongDeg (mkLatLong 0 (3 * Pi))) = None /\
  -180 <= Longitude (fst (LatLongDeg (mkLatLong 0 (3 * Pi)))) <= 180 /\
  (Mod (Longitude (mkLatLong 0 (3 * Pi)) / Pi * 180) 360 <= 180 ->
   congruent360 (Longitude (fst (LatLongDeg (mkLatLong 0 (3 * Pi)))))
     (Longitude (mkLatLong 0 (3 * Pi)) / Pi * 180)) /\
  (Longitude (mkLatLong 0 (3 * Pi)) = 3 * Pi ->
   Longitude (fst (LatLongDeg (mkLatLong 0 (3 * Pi)))) = 180).
Proof.
  assert (H : - Pi / 2 <= Latitude (mkLatLong 0 (3 * Pi)) <= Pi / 2).
  { cbn [Latitude]. pose proof Pi_pos. lra. }
  split; [exact H|].
  exact (LatLongDeg_longitude (mkLatLong 0 (3 * Pi)) H).
Defined.

(** C1 as stated fails twice.  A longitude of -pi comes out as -180, which
    is outside (-180, 180]; and a longitude of 3*pi/2 (270 degrees) comes
    out as 90, which is not congruent to 270 modulo 360. *)
Lemma LatLongDeg_longitude_counterexample :
  (- Pi / 2 <= Latitude (mkLatLong 0 (- Pi)) <= Pi / 2 /\
   ~ (-180 < Longitude (fst (LatLongDeg (mkLatLong 0 (- Pi)))) <= 180)) /\
  (- Pi / 2 <= Latitude (mkLatLong 0 (3 * Pi / 2)) <= Pi / 2 /\
   Longitude (fst (LatLongDeg (mkLatLong 0 (3 * Pi / 2)))) = 90 /\
   ~ congruent360 (Longitude (fst (LatLongDeg (mkLatLong 0 (3 * Pi / 2)))))
       (Longitude (mkLatLong 0 (3 * Pi / 2)) / Pi * 180)).
Proof.
  assert (H0 : - Pi / 2 <= 0 <= Pi / 2) by (pose proof Pi_pos; lra).
  unfold LatLongDeg; cbn [Latitude Longitude].
  rewrite (latitude_check_passes _ H0); cbn [fst snd Longitude].
  rewrite wrapLongitude_minusPi, wrapLongitude_270.
  repeat split; try lra.
  intros [k Hk].
  assert (Hx : 3 * Pi / 2 / Pi * 180 = 270) by (unfold Pi; field; apply PI_neq0).
  rewrite Hx in Hk.
  assert (Hz : (-180 = 360 * k)%Z).
  { apply eq_IZR. rewrite mult_IZR. lra. }
  lia.
Qed.

(** C6.  [LatLongDeg] returns an error exactly when the latitude lies
    outside [-pi/2, pi/2]; the two boundary values are accepted; on the
    error path the latitude is not clamped to a boundary but left at its
    zero value; and an accepted latitude is converted as
    latitude * 180 / pi. *)
Theorem LatLongDeg_latitude (rad : LatLong) :
  (snd (LatLongDeg rad) <> None <->
   (Latitude rad < - (Pi / 2) \/ Pi / 2 < Latitude rad)) /\
  (snd (LatLongDeg rad) = None ->
   Latitude (fst (LatLongDeg rad)) = Latitude rad * 180 / Pi) /\
  (snd (LatLongDeg rad) <> None ->
   snd (LatLongDeg rad)
     = Some "Latitude not within bounds -pi/2 to +pi/2"%string /\
   Latitude (fst (LatLongDeg rad)) = 0) /\
  snd (LatLongDeg (mkLatLong (Pi / 2) (Longitude rad))) = None /\
  snd (LatLongDeg (mkLatLong (- (Pi / 2)) (Longitude rad))) = None.
Proof.
  assert (Hin : forall lat lon, - (Pi / 2) <= lat <= Pi / 2 ->
            LatLongDeg (mkLatLong lat lon)
            = (mkLatLong (lat / Pi * 180) (wrapLongitude lon), None)).
  { intros lat lon H. unfold LatLongDeg; cbn [Latitude Longitude].
    rewrite latitude_check_passes; [reflexivity | lra]. }
  pose proof Pi_pos as Hpi.
  split; [|split; [|split; [|split]]].
  - destruct rad as [lat lon]; cbn [Latitude].
    destruct (Rlt_dec lat (- (Pi / 2))) as [H1|H1];
      [|destruct (Rlt_dec (Pi / 2) lat) as [H2|H2]].
    + unfold LatLongDeg; cbn [Latitude Longitude].
      rewrite latitude_check_fails by lra. cbn. split; [auto | discriminate].
    + unfold LatLongDeg; cbn [Latitude Longitude].
      rewrite latitude_check_fails by lra. cbn. split; [auto | discriminate].
    + rewrite Hin by lra. cbn. split; [congruence | lra].
  - destruct rad as [lat lon]; unfold LatLongDeg; cbn [Latitude Longitude].
    destruct (ltb lat (- Pi / 2) || gtb lat (Pi / 2)); cbn; [discriminate|].
    intros _. unfold Pi, float64. field. apply PI_neq0.
  - destruct rad as [lat lon]; unfold LatLongDeg; cbn [Latitude Longitude].
    destruct (ltb lat (- Pi / 2) || gtb lat (Pi / 2)); cbn; [auto | congruence].
  - rewrite Hin by lra. reflexivity.
  - rewrite Hin by lra. reflexivity.
Qed.

(** ** Gravity constants *)

Lemma getGravConst_wgs72old :
  getGravConst "wgs72old"
  = (mkGravConst 398600.79964 6378.135 0.0743669161 (1.0 / 0.0743669161)
       0.001082616 (-0.00000253881) (-0.00000165597)
       (-0.00000253881 / 0.001082616) (1 / 298.26), None).
Proof. reflexivity. Qed.

Lemma getGravConst_wgs72 :
  getGravConst "wgs72"
  = (mkGravConst 398600.8 6378.135
       (60.0 / Sqrt (6378.135 * 6378.135 * 6378.135 / 398600.8))
       (1.0 / (60.0 / Sqrt (6378.135 * 6378.135 * 6378.135 / 398600.8)))
       0.001082616 (-0.00000253881) (-0.00000165597)
       (-0.00000253881 / 0.001082616) (1 / 298.26), None).
Proof. reflexivity. Qed.

Lemma getGravConst_wgs84 :
  getGravConst "wgs84"
  = (mkGravConst 398600.5 6378.137
       (60.0 / Sqrt (6378.137 * 6378.137 * 6378.137 / 398600.5))
       (1.0 / (60.0 / Sqrt (6378.137 * 6378.137 * 6378.137 / 398600.5)))
       0.00108262998905 (-0.00000253215306) (-0.00000161098761)
       (-0.00000253215306 / 0.00108262998905) (1 / 298.257223563), None).
Proof. reflexivity. Qed.

Lemma getGravConst_other (name : string) :
  name <> "wgs72old"%string -> name <> "wgs72"%string ->
  name <> "wgs84"%string ->
  getGravConst name
  = (zeroGravConst, Some (name ++ " is not a valid gravity model")%string).
Proof.
  intros H1 H2 H3. unfold getGravConst.
  apply String.eqb_neq in H1, H2, H3. now rewrite H1, H2, H3.
Qed.

(** Every name is one of the three models or none of them. *)
Lemma gravity_name_cases (name : string) :
  name = "wgs72old"%string \/ name = "wgs72"%string \/ name = "wgs84"%string
  \/ (name <> "wgs72old"%string /\ name <> "wgs72"%string
      /\ name <> "wgs84"%string).
Proof.
  destruct (String.eqb_spec name "wgs72old"); [now left|].
  destruct (String.eqb_spec name "wgs72"); [now right; left|].
  destruct (String.eqb_spec name "wgs84"); [now right; right; left|].
  now right; right; right.
Qed.

(** C7.  [getGravConst] succeeds exactly for the names wgs72old, wgs72 and
    wgs84; for every other name the error message names the offending
    string and every field of the returned bundle is zero. *)
Theorem getGravConst_closed_set (name : string) :
  (snd (getGravConst name) = None <->
   name = "wgs72old"%string \/ name = "wgs72"%string
   \/ name = "wgs84"%string) /\
  (snd (getGravConst name) <> None ->
   snd (getGravConst name)
     = Some (name ++ " is not a valid gravity model")%string /\
   fst (getGravConst name) = mkGravConst 0 0 0 0 0 0 0 0 0).
Proof.
  destruct (gravity_name_cases name) as [->|[->|[->|(H1 & H2 & H3)]]].
  - rewrite getGravConst_wgs72old; cbn [fst snd]. split; [tauto | congruence].
  - rewrite getGravConst_wgs72; cbn [fst snd]. split; [tauto | congruence].
  - rewrite getGravConst_wgs84; cbn [fst snd]. split; [tauto | congruence].
  - rewrite getGravConst_other by assumption; cbn [fst snd].
    split; [|intros _; split; reflexivity].
    split; [discriminate | intros [H|[H|H]]; contradiction].
Qed.



(** ** Frame rotation *)

(** C9.  Rotating by the sidereal angle and then by its opposite gives the
    original vector back, for every angle (so in particular for those in
    [0, 2*pi)), and each rotation leaves the Z component as it is.  In the
    exact arithmetic of the model the recovery is an equality, which is
    within every tolerance. *)
Theorem ECIToECEF_inverse (eciCoords : Vector3) (gmst : float64) :
  ECIToECEF (ECIToECEF eciCoords gmst) (- gmst) = eciCoords /\
  Z_ (ECIToECEF eciCoords gmst) = Z_ eciCoords /\
  Z_ (ECIToECEF (ECIToECEF eciCoords gmst) (- gmst)) = Z_ eciCoords.
Proof.
  destruct eciCoords as [x y z].
  unfold ECIToECEF, Cos, Sin; cbn [X Y Z_].
  rewrite cos_neg, sin_neg.
  pose proof (sin2_cos2 gmst) as H. unfold Rsqr in H.
  repeat split.
  f_equal.
  - replace (_ + _) with (x * (sin gmst * sin gmst + cos gmst * cos gmst))
      by (unfold float64; ring).
    rewrite H. unfold float64; ring.
  - replace (_ + _) with (y * (sin gmst * sin gmst + cos gmst * cos gmst))
      by (unfold float64; ring).
    rewrite H. unfold float64; ring.
Qed.

(** ** Look angles *)


(** With the two corrections in that order the azimuth lands in
    [0, 2*pi), in the southern half of the compass exactly when the South
    component is positive.  (A zero South component is a division by zero
    and is left out.) *)
Lemma ECIToLookAngles_azimuth_range (eciSat : Vector3) (obsCoords : LatLongAlt)
  (jday : float64) (gravConst : GravConst) :
  let r := rangeVector eciSat obsCoords jday gravConst in
  let topS := fst (fst (topocentric r obsCoords jday)) in
  let look := ECIToLookAngles eciSat obsCoords jday gravConst in
  topS <> 0 ->
  0 <= Az look < 2 * PI /\
  (0 < topS <-> PI / 2 < Az look < 3 * PI / 2).
Proof.
  intros r topS look Hs.
  unfold look, ECIToLookAngles. fold r.
  unfold topS in *. clear topS.
  destruct (topocentric r obsCoords jday) as [[s e] z].
  cbn [fst snd] in *; cbn [Az].
  unfold Atan, Pi.
  pose proof (atan_bound (- e / s)) as [Hlo Hhi].
  pose proof PI_RGT_0 as Hpi.
  destruct (gtb s 0) eqn:Hg.
  - apply gtb_true in Hg.
    destruct (ltb (atan (- e / s) + PI) 0) eqn:Hl;
      [apply ltb_true in Hl; lra|].
    split; [lra|]. split; intros; lra.
  - apply gtb_false in Hg.
    destruct (ltb (atan (- e / s)) 0) eqn:Hl;
      [apply ltb_true in Hl | apply ltb_false in Hl];
      (split; [lra|]); split; intros; lra.
Qed.

(** ** Day of year to month and day *)

Lemma gtb_IZR (a b : Z) : gtb (IZR a) (IZR b) = (b <? a)%Z.
Proof.
  destruct (Z.ltb_spec b a) as [H|H].
  - apply gtb_true. now apply IZR_lt.
  - apply gtb_false. now apply IZR_le.
Qed.

Lemma ltb_IZR (a b : Z) : ltb (IZR a) (IZR b) = (a <? b)%Z.
Proof.
  destruct (Z.ltb_spec a b) as [H|H].
  - apply ltb_true. now apply IZR_lt.
  - apply ltb_false. now apply IZR_le.
Qed.

(** On whole numbers the loop of [days2mdhms] is the integer loop. *)
Lemma monthLoop_integers (fuel : nat) (lmonth : list Z) (d : Z) :
  forall i t : Z,
    monthLoop fuel lmonth (IZR d) (IZR i) (IZR t)
    = match monthLoopZ fuel lmonth d i t with
      | Returns (i', t') => Returns (IZR i', IZR t')
      | Panics msg => Panics msg
      | OutOfFuel => OutOfFuel
      end.
Proof.
  induction fuel as [|fuel IH]; intros i t; [reflexivity|].
  cbn [monthLoop monthLoopZ].
  rewrite <- (minus_IZR i 1), trunc_IZR.
  destruct (index lmonth (i - 1)) as [m|]; [|reflexivity].
  rewrite <- plus_IZR, gtb_IZR, ltb_IZR.
  destruct ((t + m <? d)%Z && (i <? 22)%Z); [|reflexivity].
  rewrite <- (plus_IZR i 1). apply IH.
Qed.

Lemma monthLoopZ_step (fuel : nat) (lmonth : list Z) (d i t m : Z) :
  index lmonth (i - 1) = Some m ->
  monthLoopZ (S fuel) lmonth d i t
  = if (t + m <? d)%Z && (i <? 22)%Z
    then monthLoopZ fuel lmonth d (i + 1) (t + m)
    else Returns (i, t).
Proof. intros H; cbn [monthLoopZ]; now rewrite H. Qed.

Lemma monthLoopZ_panic (fuel : nat) (lmonth : list Z) (d i t : Z) :
  index lmonth (i - 1) = None ->
  monthLoopZ (S fuel) lmonth d i t = Panics "index out of range".
Proof. intros H; cbn [monthLoopZ]; now rewrite H. Qed.

(** One turn of the integer loop at a known month and running total. *)
Ltac month_step :=
  match goal with
  | |- context [monthLoopZ (S ?n) ?lm ?d ?i ?t] =>
      let r := eval vm_compute in (index lm (i - 1)) in
      lazymatch r with
      | Some ?m =>
          let t' := eval vm_compute in (t + m)%Z in
          let i' := eval vm_compute in (i + 1)%Z in
          rewrite (monthLoopZ_step n lm d i t m) by reflexivity;
          change (t + m)%Z with t'; change (i + 1)%Z with i';
          change (i <? 22)%Z with true; rewrite andb_true_r;
          destruct (Z.ltb_spec t' d)
      | None => rewrite (monthLoopZ_panic n lm d i t) by reflexivity
      end
  end.

(** The integer loop returns when the day of the year is within the year
    and reads the table out of range when it is beyond it. *)
Lemma monthLoopZ_common (d : Z) :
  ((d <= 365)%Z -> exists i t, monthLoopZ 22 lmonthCommon d 1 0 = Returns (i, t))
  /\ ((365 < d)%Z ->
      monthLoopZ 22 lmonthCommon d 1 0 = Panics "index out of range").
Proof.
  split; intros Hd.
  - do 12 (month_step; [|eauto]). lia.
  - do 12 (month_step; [|lia]). month_step. reflexivity.
Qed.

Lemma monthLoopZ_leap (d : Z) :
  ((d <= 366)%Z -> exists i t, monthLoopZ 22 lmonthLeap d 1 0 = Returns (i, t))
  /\ ((366 < d)%Z ->
      monthLoopZ 22 lmonthLeap d 1 0 = Panics "index out of range").
Proof.
  split; intros Hd.
  - do 12 (month_step; [|eauto]). lia.
  - do 12 (month_step; [|lia]). month_step. reflexivity.
Qed.

Lemma monthLoopZ_year (year d : Z) :
  ((d <= yearDays year)%Z ->
   exists i t,
     monthLoopZ 22 (if (Z.rem year 4 =? 0)%Z then lmonthLeap else lmonthCommon)
       d 1 0 = Returns (i, t))
  /\ ((yearDays year < d)%Z ->
      monthLoopZ 22 (if (Z.rem year 4 =? 0)%Z then lmonthLeap else lmonthCommon)
        d 1 0 = Panics "index out of range").
Proof.
  unfold yearDays. destruct (Z.rem year 4 =? 0)%Z.
  - apply monthLoopZ_leap.
  - apply monthLoopZ_common.
Qed.

Lemma days2mdhms_loop (year : Z) (epochDays : R) :
  monthLoop 22 (if (Z.rem year 4 =? 0)%Z then lmonthLeap else lmonthCommon)
    (Floor epochDays) 1.0 0.0
  = match monthLoopZ 22
            (if (Z.rem year 4 =? 0)%Z then lmonthLeap else lmonthCommon)
            (Int_part epochDays) 1 0 with
    | Returns (i', t') => Returns (IZR i', IZR t')
    | Panics msg => Panics msg
    | OutOfFuel => OutOfFuel
    end.
Proof.
  replace 1.0 with (IZR 1) by lra. replace 0.0 with (IZR 0) by lra.
  apply monthLoop_integers.
Qed.

(** The run-time behaviour of [days2mdhms]: it always finishes, and it
    finishes with a panic exactly when the day of the year is beyond the
    days of the month table. *)
Lemma days2mdhms_outcome (year : Z) (epochDays : R) :
  days2mdhms year epochDays <> OutOfFuel /\
  (days2mdhms year epochDays = Panics "index out of range" <->
   (yearDays year < Int_part epochDays)%Z).
Proof.
  unfold days2mdhms. rewrite days2mdhms_loop.
  destruct (monthLoopZ_year year (Int_part epochDays)) as [Hin Hout].
  destruct (Z_le_gt_dec (Int_part epochDays) (yearDays year)) as [Hle|Hgt].
  - destruct (Hin Hle) as (i & t & ->).
    split; [discriminate|]. split; [discriminate | lia].
  - rewrite Hout by lia.
    split; [discriminate|]. split; [lia | reflexivity].
Qed.

Lemma days2mdhms_day366 : days2mdhms 2001 366.0 = Panics "index out of range".
Proof.
  apply days2mdhms_outcome.
  replace 366.0 with (IZR 366) by lra. rewrite Int_part_IZR.
  reflexivity.
Qed.

Lemma rank_parseOrder (fld : Field) : nth_error parseOrder (rank fld) = Some fld.
Proof. destruct fld; reflexivity. Qed.

(** ** The parser *)

Section ParserFacts.

Variable atof : string -> float64 * option error.
Variable atoi : string -> Z * option error.
Variable trim : string -> string.
Variable init : string -> float64 -> Satellite -> Satellite.

Lemma parseField_ok {A : Type} (r : A * option error)
  (set : A -> Satellite -> Satellite) (msg : string) (sat : Satellite)
  (k : Satellite -> Satellite * option error) :
  snd r = None -> parseField r set msg sat k = k (set (fst r) sat).
Proof. intros H; unfold parseField; now rewrite H. Qed.

Lemma parseField_err {A : Type} (r : A * option error)
  (set : A -> Satellite -> Satellite) (msg : string) (sat : Satellite)
  (k : Satellite -> Satellite * option error) (e : error) :
  snd r = Some e ->
  parseField r set msg sat k = (set (fst r) sat, Some (msg ++ e)%string).
Proof. intros H; unfold parseField; now rewrite H. Qed.

(** A property of the record that the assignment of a step keeps and the
    rest of the parse keeps is kept by the step. *)
Lemma parseField_keeps {A : Type} (P : Satellite -> Prop) (r : A * option error)
  (set : A -> Satellite -> Satellite) (msg : string) (sat : Satellite)
  (k : Satellite -> Satellite * option error) :
  (forall v s, P s -> P (set v s)) ->
  (forall s, P s -> P (fst (k s))) ->
  P sat -> P (fst (parseField r set msg sat k)).
Proof.
  intros Hset Hk Hs. unfold parseField.
  destruct (snd r); [cbn [fst]; auto | auto].
Qed.

Lemma NewSatFromTLE_error (line1 line2 gravconst : string) (e : error) :
  snd (ParseTLE atof atoi trim line1 line2 gravconst) = Some e ->
  NewSatFromTLE atof atoi trim init line1 line2 gravconst
  = Returns (fst (ParseTLE atof atoi trim line1 line2 gravconst), Some e).
Proof.
  unfold NewSatFromTLE.
  destruct (ParseTLE atof atoi trim line1 line2 gravconst) as [sat err].
  cbn [fst snd]. now intros ->.
Qed.

(** Passing a step whose parse is known to succeed. *)
Ltac pass H := rewrite parseField_ok by exact H.

(** Entering the field steps of [ParseTLE] on two lines of 69 bytes and a
    known gravity model. *)
Ltac enter_fields H1 H2 Hg :=
  unfold ParseTLE; rewrite H1, H2; cbn [Nat.eqb negb]; pass Hg.

(** The parse stops at the first field that fails. *)
Lemma ParseTLE_stops_at (line1 line2 gravconst : string) (fld : Field)
  (cause : error) :
  String.length line1 = 69%nat ->
  String.length line2 = 69%nat ->
  snd (getGravConst gravconst) = None ->
  (forall g, (rank g < rank fld)%nat ->
             fieldError atof atoi trim g line1 line2 = None) ->
  fieldError atof atoi trim fld line1 line2 = Some cause ->
  snd (ParseTLE atof atoi trim line1 line2 gravconst)
  = Some ("Error on parsing " ++ columns fld ++ ": " ++ cause)%string /\
  (forall g, (rank fld < rank g)%nat ->
             isZero g (fst (ParseTLE atof atoi trim line1 line2 gravconst))) /\
  jdsatepoch (fst (ParseTLE atof atoi trim line1 line2 gravconst)) = mkJDay 0 0.
Proof.
  intros H1 H2 Hg Hprev Hfail.
  assert (P : forall g, (rank g <? rank fld)%nat = true ->
              fieldError atof atoi trim g line1 line2 = None).
  { intros g Hlt. apply Hprev. now apply Nat.ltb_lt. }
  enter_fields H1 H2 Hg.
  destruct fld;
    try pass (P Fsatnum eq_refl); try pass (P Fepochyr eq_refl);
    try pass (P Fepochdays eq_refl); try pass (P Fndot eq_refl);
    try pass (P Fnddot eq_refl); try pass (P Fbstar eq_refl);
    try pass (P Finclo eq_refl); try pass (P Fnodeo eq_refl);
    try pass (P Fecco eq_refl); try pass (P Fargpo eq_refl);
    try pass (P Fmo eq_refl);
    rewrite (parseField_err _ _ _ _ _ cause) by exact Hfail;
    (split; [reflexivity|]);
    (split; [|reflexivity]);
    intros g Hlt; destruct g; cbn [rank] in Hlt; try lia; reflexivity.
Qed.

(** Among the fields that fail there is a first one in parse order. *)
Lemma first_failing_field (line1 line2 : string) :
  (exists fld, fieldError atof atoi trim fld line1 line2 <> None) ->
  exists fld cause,
    fieldError atof atoi trim fld line1 line2 = Some cause /\
    forall g, (rank g < rank fld)%nat ->
              fieldError atof atoi trim g line1 line2 = None.
Proof.
  intros Hsome.
  assert (Hscan : forall n : nat,
            (exists fld cause,
               fieldError atof atoi trim fld line1 line2 = Some cause /\
               forall g, (rank g < rank fld)%nat ->
                         fieldError atof atoi trim g line1 line2 = None)
            \/ forall g, (rank g < n)%nat ->
                         fieldError atof atoi trim g line1 line2 = None).
  { induction n as [|n [Hfound|Hnone]].
    - right; intros g Hg; lia.
    - now left.
    - destruct (nth_error parseOrder n) as [fld|] eqn:Hn.
      + assert (Hr : rank fld = n).
        { do 12 (destruct n as [|n];
                 [cbn in Hn; injection Hn as <-; reflexivity|]).
          destruct n; discriminate. }
        destruct (fieldError atof atoi trim fld line1 line2) as [c|] eqn:Hf.
        * left. exists fld, c. split; [exact Hf|].
          intros g Hg. apply Hnone. lia.
        * right. intros g Hg.
          destruct (Nat.eq_dec (rank g) n) as [He|He].
          -- assert (g = fld); [|now subst].
             rewrite <- Hr in He. destruct g, fld; cbn in He; congruence.
          -- apply Hnone. lia.
      + right. intros g Hg.
        destruct (Nat.eq_dec (rank g) n) as [He|He]; [|apply Hnone; lia].
        pose proof (rank_parseOrder g) as Hg'. rewrite He in Hg'. congruence. }
  destruct (Hscan 12%nat) as [Hfound|Hnone]; [exact Hfound|].
  destruct Hsome as [fld Hne]. exfalso. apply Hne, Hnone.
  destruct fld; cbn; lia.
Qed.

(** C5.  On two lines of 69 bytes and a known gravity model, whenever
    some field fails its numeric parse there is a first such field in
    parse order, and [ParseTLE] stops there: it returns the error that
    names the column range of that field followed by the message of the
    underlying failure; every field later in the parse order, and the
    Julian epoch, still hold zero in the returned record; and
    [NewSatFromTLE] hands the same record and error back without
    converting or initialising anything. *)
Theorem ParseTLE_first_failure (line1 line2 gravconst : string) :
  String.length line1 = 69%nat ->
  String.length line2 = 69%nat ->
  snd (getGravConst gravconst) = None ->
  (exists fld, fieldError atof atoi trim fld line1 line2 <> None) ->
  exists (fld : Field) (cause : error),
    fieldError atof atoi trim fld line1 line2 = Some cause /\
    (forall g, (rank g < rank fld)%nat ->
               fieldError atof atoi trim g line1 line2 = None) /\
    snd (ParseTLE atof atoi trim line1 line2 gravconst)
    = Some ("Error on parsing " ++ columns fld ++ ": " ++ cause)%string /\
    (forall g, (rank fld < rank g)%nat ->
               isZero g (fst (ParseTLE atof atoi trim line1 line2 gravconst))) /\
    jdsatepoch (fst (ParseTLE atof atoi trim line1 line2 gravconst))
    = mkJDay 0 0 /\
    NewSatFromTLE atof atoi trim init line1 line2 gravconst
    = Returns (fst (ParseTLE atof atoi trim line1 line2 gravconst),
               Some ("Error on parsing " ++ columns fld ++ ": " ++ cause)%string).
Proof.
  intros H1 H2 Hg Hsome.
  destruct (first_failing_field line1 line2 Hsome) as (fld & cause & Hf & Hp).
  destruct (ParseTLE_stops_at line1 line2 gravconst fld cause H1 H2 Hg Hp Hf)
    as (He & Hz & Hj).
  exists fld, cause. repeat split; auto.
  now apply NewSatFromTLE_error.
Qed.

(** Deleting up to [n] spaces deletes them all when there are no more
    than [n]. *)
Lemma replaceFirst_strip (s : string) :
  forall n : nat,
    (countSpaces s <= n)%nat ->
    replaceFirst s " " EmptyString n = stripSpaces s.
Proof.
  unfold stripSpaces.
  induction s as [|c s IH]; intros n Hn; [reflexivity|].
  cbn [countSpaces] in Hn. cbn [replaceFirst replaceAll].
  destruct (Ascii.eqb c " ").
  - destruct n as [|n]; [lia|].
    cbn [String.append]. apply IH. lia.
  - destruct n as [|n].
    + cbn [Nat.add] in Hn.
      assert (H0 : forall t, countSpaces t = 0%nat ->
                             replaceAll t " " EmptyString = t).
      { clear. induction t as [|d t IHt]; [reflexivity|].
        cbn [countSpaces replaceAll].
        destruct (Ascii.eqb d " "); [discriminate|].
        cbn [Nat.add]. intros H. now rewrite IHt. }
      rewrite H0 by lia. reflexivity.
    + f_equal. apply IH. lia.
Qed.

Lemma countSpaces_strip (s : string) : countSpaces (stripSpaces s) = 0%nat.
Proof.
  unfold stripSpaces. induction s as [|c s IH]; [reflexivity|].
  cbn [replaceAll]. destruct (Ascii.eqb c " ") eqn:Hc.
  - cbn [String.append]. exact IH.
  - cbn [countSpaces]. now rewrite Hc, IH.
Qed.

Lemma replaceAll_no_space (s new : string) :
  countSpaces s = 0%nat -> replaceAll s " " new = s.
Proof.
  induction s as [|c s IH]; [reflexivity|].
  cbn [countSpaces replaceAll].
  destruct (Ascii.eqb c " "); [discriminate|].
  cbn [Nat.add]. intros H. now rewrite IH.
Qed.

(** What [parseFloat] hands to [strconv.ParseFloat] for the text of a
    column: the first two spaces deleted, the others turned into zeros. *)
Lemma parseFloat_column (col : string) :
  parseFloat atof (Replace col " " EmptyString 2)
  = atof (Replace (Replace col " " EmptyString 2) " " "0" (-1)).
Proof. reflexivity. Qed.

(** Once the three fields before it have parsed, [ndot] is what
    [parseFloat] returns for columns [33,43), whatever happens to the
    fields after it. *)
Lemma ParseTLE_ndot (line1 line2 gravconst : string) :
  String.length line1 = 69%nat ->
  String.length line2 = 69%nat ->
  snd (getGravConst gravconst) = None ->
  fieldError atof atoi trim Fsatnum line1 line2 = None ->
  fieldError atof atoi trim Fepochyr line1 line2 = None ->
  fieldError atof atoi trim Fepochdays line1 line2 = None ->
  ndot (fst (ParseTLE atof atoi trim line1 line2 gravconst))
  = fst (parseFloat atof (Replace (slice line1 33 43) " " EmptyString 2)).
Proof.
  intros H1 H2 Hg Ha Hb Hc.
  enter_fields H1 H2 Hg. pass Ha. pass Hb. pass Hc.
  set (v := fst (parseFloat atof (Replace (slice line1 33 43) " " EmptyString 2))).
  unfold parseField at 1. fold v.
  destruct (snd (parseFloat atof (Replace (slice line1 33 43) " " EmptyString 2)));
    [reflexivity|].
  repeat (apply (parseField_keeps (fun s => ndot s = v));
          [intros ? ? ?; assumption | intros ? ?
          | first [assumption | reflexivity]]).
  assumption.
Qed.

(** C2, as the code has it.  When [ParseTLE] reaches the first
    mean-motion derivative on two lines of 69 bytes, [ndot] is the float
    value of columns [33,43) with the first two spaces deleted and every
    further space replaced by a zero digit; that is the value of the
    columns with all spaces deleted whenever they hold at most two
    spaces. *)
Theorem ParseTLE_ndot_spaces (line1 line2 gravconst : string) :
  String.length line1 = 69%nat ->
  String.length line2 = 69%nat ->
  snd (getGravConst gravconst) = None ->
  fieldError atof atoi trim Fsatnum line1 line2 = None ->
  fieldError atof atoi trim Fepochyr line1 line2 = None ->
  fieldError atof atoi trim Fepochdays line1 line2 = None ->
  ndot (fst (ParseTLE atof atoi trim line1 line2 gravconst))
  = fst (atof (Replace (Replace (slice line1 33 43) " " EmptyString 2)
               " " "0" (-1))) /\
  ((countSpaces (slice line1 33 43) <= 2)%nat ->
   ndot (fst (ParseTLE atof atoi trim line1 line2 gravconst))
   = fst (atof (stripSpaces (slice line1 33 43)))).
Proof.
  intros H1 H2 Hg Ha Hb Hc.
  rewrite (ParseTLE_ndot line1 line2 gravconst H1 H2 Hg Ha Hb Hc).
  rewrite parseFloat_column.
  split; [reflexivity|].
  intros Hn.
  change (Replace (slice line1 33 43) " " EmptyString 2)
    with (replaceFirst (slice line1 33 43) " " EmptyString 2).
  rewrite (replaceFirst_strip _ 2 Hn).
  change (Replace (stripSpaces (slice line1 33 43)) " " "0" (-1))
    with (replaceAll (stripSpaces (slice line1 33 43)) " " "0").
  now rewrite replaceAll_no_space by apply countSpaces_strip.
Qed.

(** Within the range of [int64] that leaves room for the addition, the
    century rule does not wrap around. *)
Lemma epochYear_pivot (y : Z) :
  (- 2 ^ 63 <= y <= 2 ^ 63 - 1901)%Z ->
  epochYear y = if (y <? 57)%Z then (y + 2000)%Z else (y + 1900)%Z.
Proof.
  intros Hy. unfold epochYear, wrap64.
  destruct (Z.ltb_spec y 57); rewrite Z.mod_small; lia.
Qed.

(** C8.  After a successful parse, [NewSatFromTLE] resolves the epoch year
    [y] of the record to [y + 2000] when [y < 57] and to [y + 1900]
    otherwise (for every [y] that a two-digit field can hold, and in fact
    for every [int64] that leaves room for the addition): that year is
    the one handed to [days2mdhms] and to the Julian epoch of the record
    that the initialiser receives.  Year digits 56 and 57 resolve to 2056
    and 1957. *)
Theorem NewSatFromTLE_epoch_year (line1 line2 gravconst : string)
  (sat : Satellite) :
  ParseTLE atof atoi trim line1 line2 gravconst = (sat, None) ->
  (- 2 ^ 63 <= epochyr sat <= 2 ^ 63 - 1901)%Z ->
  let year := if (epochyr sat <? 57)%Z then (epochyr sat + 2000)%Z
              else (epochyr sat + 1900)%Z in
  epochYear (epochyr sat) = year /\
  match days2mdhms year (epochdays sat) with
  | Returns (mon, day, hr, min, sec) =>
      exists conv : Satellite,
        jdsatepoch conv
        = NewJDay year (trunc mon) (trunc day) (trunc hr) (trunc min) sec /\
        NewSatFromTLE atof atoi trim init line1 line2 gravconst
        = Returns (init "i"%string (Subtract (jdsatepoch conv) 2433281.5) conv,
                   None)
  | Panics msg =>
      NewSatFromTLE atof atoi trim init line1 line2 gravconst = Panics msg
  | OutOfFuel =>
      NewSatFromTLE atof atoi trim init line1 line2 gravconst = OutOfFuel
  end /\
  epochYear 56 = 2056%Z /\ epochYear 57 = 1957%Z.
Proof.
  intros Hp Hr year.
  assert (Hy : epochYear (epochyr sat) = year) by now apply epochYear_pivot.
  split; [exact Hy|]. split; [|split; reflexivity].
  unfold NewSatFromTLE. rewrite Hp.
  cbn [epochyr epochdays set_no set_ndot set_nddot set_inclo set_nodeo
       set_argpo set_mo].
  rewrite Hy.
  destruct (days2mdhms year (epochdays sat))
    as [[[[[mon day] hr] min] sec]|msg|]; [|reflexivity|reflexivity].
  eexists. split; [|reflexivity]. reflexivity.
Qed.

(** A panic of [days2mdhms] on the parsed epoch is a panic of
    [NewSatFromTLE]. *)
Lemma NewSatFromTLE_panics (line1 line2 gravconst : string) (sat : Satellite)
  (msg : string) :
  ParseTLE atof atoi trim line1 line2 gravconst = (sat, None) ->
  days2mdhms (epochYear (epochyr sat)) (epochdays sat) = Panics msg ->
  NewSatFromTLE atof atoi trim init line1 line2 gravconst = Panics msg.
Proof.
  intros Hp Hd. unfold NewSatFromTLE. rewrite Hp.
  cbn [epochyr epochdays set_no set_ndot set_nddot set_inclo set_nodeo
       set_argpo set_mo].
  now rewrite Hd.
Qed.

End ParserFacts.

(** ** Concrete runs *)

Lemma ParseTLE_first_failure_witness :
  String.length badYearLine1 = 69%nat /\
  String.length issLine2 = 69%nat /\
  snd (getGravConst "wgs72") = None /\
  (exists fld,
     fieldError Decimal.ParseFloat Decimal.ParseInt Decimal.TrimSpace fld
       badYearLine1 issLine2 <> None) /\
  exists (fld : Field) (cause : error),
    fieldError Decimal.ParseFloat Decimal.ParseInt Decimal.TrimSpace fld
      badYearLine1 issLine2 = Some cause /\
    (forall g, (rank g < rank fld)%nat ->
       fieldError Decimal.ParseFloat Decimal.ParseInt Decimal.TrimSpace g
         badYearLine1 issLine2 = None) /\
    snd (ParseTLE Decimal.ParseFloat Decimal.ParseInt Decimal.TrimSpace
           badYearLine1 issLine2 "wgs72")
    = Some ("Error on parsing " ++ columns fld ++ ": " ++ cause)%string /\
    (forall g, (rank fld < rank g)%nat ->
       isZero g (fst (ParseTLE Decimal.ParseFloat Decimal.ParseInt
                        Decimal.TrimSpace badYearLine1 issLine2 "wgs72"))) /\
    jdsatepoch (fst (ParseTLE Decimal.ParseFloat Decimal.ParseInt
                       Decimal.TrimSpace badYearLine1 issLine2 "wgs72"))
    = mkJDay 0 0 /\
    NewSatFromTLE Decimal.ParseFloat Decimal.ParseInt Decimal.TrimSpace
      Decimal.sgp4init badYearLine1 issLine2 "wgs72"
    = Returns (fst (ParseTLE Decimal.ParseFloat Decimal.ParseInt
                      Decimal.TrimSpace badYearLine1 issLine2 "wgs72"),
               Some ("Error on parsing " ++ columns fld ++ ": "
                     ++ cause)%string).
Proof.
  assert (H1 : String.length badYearLine1 = 69%nat) by reflexivity.
  assert (H2 : String.length issLine2 = 69%nat) by reflexivity.
  assert (Hg : snd (getGravConst "wgs72") = None) by reflexivity.
  assert (Hsome : exists fld,
            fieldError Decimal.ParseFloat Decimal.ParseInt Decimal.TrimSpace
              fld badYearLine1 issLine2 <> None).
  { exists Fepochyr. vm_compute. discriminate. }
  split; [exact H1|]. split; [exact H2|]. split; [exact Hg|].
  split; [exact Hsome|].
  exact (ParseTLE_first_failure Decimal.ParseFloat Decimal.ParseInt
           Decimal.TrimSpace Decimal.sgp4init badYearLine1 issLine2 "wgs72"
           H1 H2 Hg Hsome).
Defined.

(** On that input the first failing field is the epoch year, and the
    error is the one for columns 18 to 20. *)
Lemma ParseTLE_bad_year :
  ParseTLE Decimal.ParseFloat Decimal.ParseInt Decimal.TrimSpace
    badYearLine1 issLine2 "wgs72"
  = (set_epochyr 0%Z
       (set_satnum 25544%Z
          (set_Whichconst (fst (getGravConst "wgs72"))
             (set_Error 0%Z
                (set_Line2 issLine2 (set_Line1 badYearLine1 zeroSatellite))))),
     Some ("Error on parsing line1[18:20]: " ++ badYearCause)%string).
Proof. reflexivity. Qed.

Lemma ParseTLE_ndot_spaces_witness :
  String.length issLine1 = 69%nat /\
  String.length issLine2 = 69%nat /\
  snd (getGravConst "wgs72") = None /\
  fieldError Decimal.ParseFloat Decimal.ParseInt Decimal.TrimSpace Fsatnum
    issLine1 issLine2 = None /\
  fieldError Decimal.ParseFloat Decimal.ParseInt Decimal.TrimSpace Fepochyr
    issLine1 issLine2 = None /\
  fieldError Decimal.ParseFloat Decimal.ParseInt Decimal.TrimSpace Fepochdays
    issLine1 issLine2 = None /\
  ndot (fst (ParseTLE Decimal.ParseFloat Decimal.ParseInt Decimal.TrimSpace
               issLine1 issLine2 "wgs72"))
  = fst (Decimal.ParseFloat
           (Replace (Replace (slice issLine1 33 43) " " EmptyString 2)
              " " "0" (-1))) /\
  ((countSpaces (slice issLine1 33 43) <= 2)%nat ->
   ndot (fst (ParseTLE Decimal.ParseFloat Decimal.ParseInt Decimal.TrimSpace
                issLine1 issLine2 "wgs72"))
   = fst (Decimal.ParseFloat (stripSpaces (slice issLine1 33 43)))).
Proof.
  assert (H1 : String.length issLine1 = 69%nat) by reflexivity.
  assert (H2 : String.length issLine2 = 69%nat) by reflexivity.
  assert (Hg : snd (getGravConst "wgs72") = None) by reflexivity.
  assert (Ha : fieldError Decimal.ParseFloat Decimal.ParseInt Decimal.TrimSpace
                 Fsatnum issLine1 issLine2 = None) by (vm_compute; reflexivity).
  assert (Hb : fieldError Decimal.ParseFloat Decimal.ParseInt Decimal.TrimSpace
                 Fepochyr issLine1 issLine2 = None) by (vm_compute; reflexivity).
  assert (Hc : fieldError Decimal.ParseFloat Decimal.ParseInt Decimal.TrimSpace
                 Fepochdays issLine1 issLine2 = None)
    by (vm_compute; reflexivity).
  split; [exact H1|]. split; [exact H2|]. split; [exact Hg|].
  split; [exact Ha|]. split; [exact Hb|]. split; [exact Hc|].
  exact (ParseTLE_ndot_spaces Decimal.ParseFloat Decimal.ParseInt
           Decimal.TrimSpace issLine1 issLine2 "wgs72" H1 H2 Hg Ha Hb Hc).
Defined.

(** C2 as stated fails on columns [33,43) that hold a digit and nine
    spaces: two spaces are deleted, the other seven become zeros, and
    [ndot] is 10000000, while the columns with all spaces deleted read
    1. *)
Lemma ParseTLE_ndot_counterexample :
  String.length spacedLine1 = 69%nat /\
  String.length issLine2 = 69%nat /\
  slice spacedLine1 33 43 = "1         "%string /\
  snd (ParseTLE Decimal.ParseFloat Decimal.ParseInt Decimal.TrimSpace
         spacedLine1 issLine2 "wgs72") = None /\
  ndot (fst (ParseTLE Decimal.ParseFloat Decimal.ParseInt Decimal.TrimSpace
               spacedLine1 issLine2 "wgs72")) = 10000000 /\
  fst (Decimal.ParseFloat (stripSpaces (slice spacedLine1 33 43))) = 1 /\
  ndot (fst (ParseTLE Decimal.ParseFloat Decimal.ParseInt Decimal.TrimSpace
               spacedLine1 issLine2 "wgs72"))
  <> fst (Decimal.ParseFloat (stripSpaces (slice spacedLine1 33 43))).
Proof.
  assert (Hn : ndot (fst (ParseTLE Decimal.ParseFloat Decimal.ParseInt
                            Decimal.TrimSpace spacedLine1 issLine2 "wgs72"))
               = 10000000) by (vm_compute; lra).
  assert (Hs : fst (Decimal.ParseFloat (stripSpaces (slice spacedLine1 33 43)))
               = 1) by (vm_compute; lra).
  repeat split; try reflexivity; try assumption.
  rewrite Hn, Hs. lra.
Qed.

Lemma NewSatFromTLE_epoch_year_witness :
  ParseTLE Decimal.ParseFloat Decimal.ParseInt Decimal.TrimSpace
    issLine1 issLine2 "wgs72" = (issParsed, None) /\
  (- 2 ^ 63 <= epochyr issParsed <= 2 ^ 63 - 1901)%Z /\
  let year := if (epochyr issParsed <? 57)%Z then (epochyr issParsed + 2000)%Z
              else (epochyr issParsed + 1900)%Z in
  epochYear (epochyr issParsed) = year /\
  match days2mdhms year (epochdays issParsed) with
  | Returns (mon, day, hr, min, sec) =>
      exists conv : Satellite,
        jdsatepoch conv
        = NewJDay year (trunc mon) (trunc day) (trunc hr) (trunc min) sec /\
        NewSatFromTLE Decimal.ParseFloat Decimal.ParseInt Decimal.TrimSpace
          Decimal.sgp4init issLine1 issLine2 "wgs72"
        = Returns (Decimal.sgp4init "i"%string
                     (Subtract (jdsatepoch conv) 2433281.5) conv, None)
  | Panics msg =>
      NewSatFromTLE Decimal.ParseFloat Decimal.ParseInt Decimal.TrimSpace
        Decimal.sgp4init issLine1 issLine2 "wgs72" = Panics msg
  | OutOfFuel =>
      NewSatFromTLE Decimal.ParseFloat Decimal.ParseInt Decimal.TrimSpace
        Decimal.sgp4init issLine1 issLine2 "wgs72" = OutOfFuel
  end /\
  epochYear 56 = 2056%Z /\ epochYear 57 = 1957%Z.
Proof.
  assert (Hp : ParseTLE Decimal.ParseFloat Decimal.ParseInt Decimal.TrimSpace
                 issLine1 issLine2 "wgs72" = (issParsed, None)).
  { apply injective_projections; [reflexivity | vm_compute; reflexivity]. }
  assert (He : epochyr issParsed = 8%Z) by (vm_compute; reflexivity).
  assert (Hr : (- 2 ^ 63 <= epochyr issParsed <= 2 ^ 63 - 1901)%Z)
    by (rewrite He; lia).
  split; [exact Hp|]. split; [exact Hr|].
  exact (NewSatFromTLE_epoch_year Decimal.ParseFloat Decimal.ParseInt
           Decimal.TrimSpace Decimal.sgp4init issLine1 issLine2 "wgs72"
           issParsed Hp Hr).
Defined.

(** C3, at its failing input.  Day 366 of the common year 2001 takes the
    loop to [i = 13], where its condition reads [lmonth[12]] before it
    tests [i < 22]: the call panics, and so does [NewSatFromTLE] on an
    element set with that epoch.  In general the call always ends, and it
    ends in that panic exactly when the whole part of [epochDays] exceeds
    the days of the year's table, so the cap of 22 does not keep the table
    accesses in range. *)
Theorem days2mdhms_index_out_of_range :
  days2mdhms 2001 366.0 = Panics "index out of range" /\
  NewSatFromTLE Decimal.ParseFloat Decimal.ParseInt Decimal.TrimSpace
    Decimal.sgp4init lateDayLine1 issLine2 "wgs72"
  = Panics "index out of range" /\
  (forall (year : Z) (epochDays : float64),
     days2mdhms year epochDays <> OutOfFuel /\
     (days2mdhms year epochDays = Panics "index out of range" <->
      (yearDays year < Int_part epochDays)%Z)).
Proof.
  split; [exact days2mdhms_day366|].
  split; [|exact days2mdhms_outcome].
  apply (NewSatFromTLE_panics Decimal.ParseFloat Decimal.ParseInt
           Decimal.TrimSpace Decimal.sgp4init lateDayLine1 issLine2 "wgs72"
           lateDayParsed).
  - apply injective_projections; [reflexivity | vm_compute; reflexivity].
  - assert (Hy : epochYear (epochyr lateDayParsed) = 2001%Z)
      by (vm_compute; reflexivity).
    assert (Hd : epochdays lateDayParsed = 366.0) by (vm_compute; lra).
    rewrite Hy, Hd. exact days2mdhms_day366.
Qed.

(** * Further properties of [helpers.go] *)

(** ** Julian dates and sidereal time *)

Lemma Mod_small (x y : R) : 0 <= x < y -> Mod x y = x.
Proof.
  intros H. rewrite (Mod_eq x y 0); try lra.
  assert (0 < / y) by (apply Rinv_0_lt_compat; lra).
  unfold Rdiv. split; [nra|].
  apply (Rmult_lt_reg_r y); [lra|]. rewrite Rmult_assoc, Rinv_l; lra.
Qed.

Lemma Mod_small_neg (x y : R) : - y < x < 0 -> Mod x y = x.
Proof.
  intros H. rewrite (Mod_eq_neg x y 0); try lra.
  assert (0 < / y) by (apply Rinv_0_lt_compat; lra).
  unfold Rdiv. split; [|nra].
  apply (Rmult_lt_reg_r y); [lra|]. rewrite Rmult_assoc, Rinv_l; lra.
Qed.

Lemma Mod_abs_lt (x y : R) : 0 < y -> - y < Mod x y < y.
Proof.
  intros Hy. destruct (Mod_bounds x y Hy) as [Hp Hn].
  destruct (Rle_dec 0 x); [specialize (Hp ltac:(lra)) | specialize (Hn ltac:(lra))];
    lra.
Qed.

Lemma TWOPI_pos : 0 < TWOPI.
Proof. unfold TWOPI, Pi. pose proof PI_RGT_0. lra. Qed.


(** [gstime] returns an angle in [0, 2*pi) that differs from the
    polynomial angle by a whole number of turns; so does
    [GSTimeFromDate]. *)
Theorem gstime_range (jdut1 : float64) :
  0 <= gstime jdut1 < 2 * PI /\
  (exists k : Z, gstime jdut1 = gstimeAngle jdut1 + 2 * PI * IZR k) /\
  (forall (year mon day hr min : Z) (sec : float64),
     0 <= GSTimeFromDate year mon day hr min sec < 2 * PI).
Proof.
  assert (Hrange : forall j, 0 <= gstime j < 2 * PI).
  { intros j. unfold gstime.
    match goal with |- context [Mod ?x TWOPI] => set (a := x) end.
    pose proof (Mod_abs_lt a TWOPI TWOPI_pos) as Hb.
    assert (Ht : TWOPI = 2 * PI) by (unfold TWOPI, Pi; lra).
    destruct (ltb (Mod a TWOPI) 0.0) eqn:Hl.
    - apply ltb_true in Hl. lra.
    - apply ltb_false in Hl. lra. }
  split; [apply Hrange|]. split; [|intros; apply Hrange].
  unfold gstime, gstimeAngle.
  match goal with |- context [Mod ?x TWOPI] => set (a := x) end.
  destruct (Mod_multiple a TWOPI) as [k Hk].
  assert (Ht : TWOPI = 2 * PI) by (unfold TWOPI, Pi; lra).
  destruct (ltb (Mod a TWOPI) 0.0).
  - exists (1 - k)%Z. rewrite minus_IZR, Hk, Ht. unfold float64; ring.
  - exists (- k)%Z. rewrite opp_IZR, Hk, Ht. unfold float64; ring.
Qed.

Lemma ThetaG_JD_1999 : ThetaG_JD 2451179.5 < 0.
Proof.
  unfold ThetaG_JD, Modf; cbn [snd].
  replace (2451179.5 + 0.5) with (IZR 2451180) by lra.
  rewrite trunc_IZR.
  replace (IZR 2451180 - IZR 2451180) with 0 by lra.
  match goal with |- context [Mod ?x 86400.0] => set (v := x) end.
  assert (Hv : - (86400.0) < v < 0) by (unfold v; lra).
  rewrite (Mod_small_neg v 86400.0 Hv).
  unfold Pi. pose proof PI_RGT_0. unfold Rdiv. nra.
Qed.

(** [ThetaG_JD] returns an angle strictly between -2*pi and 2*pi: the
    remainder keeps the sign of the polynomial value and is not wrapped
    up, so the angle can be negative, as it is on 1 January 1999. *)
Theorem ThetaG_JD_range :
  (forall jday : float64, - (2 * PI) < ThetaG_JD jday < 2 * PI) /\
  ThetaG_JD 2451179.5 < 0.
Proof.
  split; [|exact ThetaG_JD_1999].
  intros jday. unfold ThetaG_JD.
  match goal with |- context [Mod ?x 86400.0] => set (v := x) end.
  assert (H864 : 0 < 86400.0) by lra.
  pose proof (Mod_abs_lt v 86400.0 H864) as Hb.
  unfold Pi. pose proof PI_RGT_0 as Hpi.
  replace (2 * PI * Mod v 86400.0 / 86400.0)
    with (2 * PI * (Mod v 86400.0 / 86400.0)) by (unfold float64, Rdiv; ring).
  assert (-1 < Mod v 86400.0 / 86400.0 < 1) by (split; lra).
  split; nra.
Qed.

(** ** Rotation into the Earth-fixed frame *)

(** [ECIToECEF] keeps the length of the vector, is the identity at angle
    zero, and two rotations in a row are the rotation by the sum of the
    angles. *)
Theorem ECIToECEF_rotation (v : Vector3) (a b : float64) :
  X (ECIToECEF v a) * X (ECIToECEF v a) + Y (ECIToECEF v a) * Y (ECIToECEF v a)
  + Z_ (ECIToECEF v a) * Z_ (ECIToECEF v a)
  = X v * X v + Y v * Y v + Z_ v * Z_ v /\
  ECIToECEF v 0 = v /\
  ECIToECEF (ECIToECEF v a) b = ECIToECEF v (a + b).
Proof.
  destruct v as [x y z]. unfold ECIToECEF, Cos, Sin; cbn [X Y Z_].
  pose proof (sin2_cos2 a) as H. unfold Rsqr in H.
  split; [|split].
  - unfold float64 in *.
    replace (_ + _ + z * z)
      with ((x * x + y * y) * (sin a * sin a + cos a * cos a) + z * z) by ring.
    rewrite H. ring.
  - rewrite cos_0, sin_0. f_equal; unfold float64; ring.
  - rewrite cos_plus, sin_plus. f_equal; unfold float64; ring.
Qed.

(** ** Degrees and radians *)

Lemma DEG2RAD_eq : DEG2RAD = PI / 180.
Proof. unfold DEG2RAD, Pi. f_equal. f_equal. lra. Qed.

Lemma wrapLongitude_degrees (lonDeg : R) :
  -180 <= lonDeg <= 180 -> wrapLongitude (DEG2RAD * lonDeg) = lonDeg.
Proof.
  intros H. unfold wrapLongitude.
  assert (Hx : DEG2RAD * lonDeg / Pi * 180 = lonDeg).
  { rewrite DEG2RAD_eq. unfold Pi, float64. field. apply PI_neq0. }
  rewrite Hx.
  assert (Hm : Mod lonDeg 360 = lonDeg).
  { destruct (Rle_dec 0 lonDeg).
    - apply Mod_small; lra.
    - apply Mod_small_neg; lra. }
  rewrite Hm.
  destruct (gtb lonDeg 180) eqn:Hg; [apply gtb_true in Hg; lra|].
  destruct (ltb lonDeg (-180)) eqn:Hl; [apply ltb_true in Hl; lra|].
  reflexivity.
Qed.

(** Degrees to radians and back: for a latitude in [-90, 90] and a
    longitude in [-180, 180], [LatLongDeg] returns, without an error, the
    degrees that [NewLatLongAlt] was given. *)
Theorem NewLatLongAlt_LatLongDeg (latitudeDeg longitudeDeg altitudeKm : float64) :
  -90 <= latitudeDeg <= 90 ->
  -180 <= longitudeDeg <= 180 ->
  LatLongDeg (LatLong_ (NewLatLongAlt latitudeDeg longitudeDeg altitudeKm))
  = (mkLatLong latitudeDeg longitudeDeg, None).
Proof.
  intros Hlat Hlon. unfold NewLatLongAlt, LatLongDeg; cbn [LatLong_ Latitude Longitude].
  pose proof Pi_pos as Hpi.
  rewrite latitude_check_passes.
  - rewrite (wrapLongitude_degrees _ Hlon). f_equal. f_equal.
    rewrite DEG2RAD_eq. unfold Pi, float64. field. apply PI_neq0.
  - rewrite DEG2RAD_eq. unfold Pi in *.
    assert (H1 : 0 <= PI * (latitudeDeg + 90)) by (apply Rmult_le_pos; lra).
    assert (H2 : 0 <= PI * (90 - latitudeDeg)) by (apply Rmult_le_pos; lra).
    split; lra.
Qed.

Lemma NewLatLongAlt_LatLongDeg_witness :
  -90 <= 51.5 <= 90 /\
  -180 <= - 0.1 <= 180 /\
  LatLongDeg (LatLong_ (NewLatLongAlt 51.5 (- 0.1) 0))
  = (mkLatLong 51.5 (- 0.1), None).
Proof.
  assert (H1 : -90 <= 51.5 <= 90) by lra.
  assert (H2 : -180 <= - 0.1 <= 180) by lra.
  split; [exact H1|]. split; [exact H2|].
  exact (NewLatLongAlt_LatLongDeg 51.5 (- 0.1) 0 H1 H2).
Defined.

(** ** Geodetic coordinates from an inertial position *)

Lemma Atan2_range (y x : R) : - PI < Atan2 y x <= PI.
Proof.
  unfold Atan2, Atan, Pi. pose proof PI_RGT_0 as Hpi.
  pose proof (atan_bound (y / x)) as Hb.
  destruct (gtb x 0) eqn:Hx; [lra|]. apply gtb_false in Hx.
  destruct (ltb x 0) eqn:Hx'.
  - apply ltb_true in Hx'.
    assert (Hinv : / x < 0) by now apply Rinv_lt_0_compat.
    destruct (ltb y 0) eqn:Hy.
    + apply ltb_true in Hy.
      assert (0 < y / x) by (unfold Rdiv; nra).
      pose proof (atan_increasing 0 (y / x) ltac:(lra)) as Hi.
      rewrite atan_0 in Hi. lra.
    + apply ltb_false in Hy.
      assert (y / x <= 0) by (unfold Rdiv; nra).
      assert (atan (y / x) <= 0).
      { destruct (Req_dec (y / x) 0) as [->|Hne]; [rewrite atan_0; lra|].
        pose proof (atan_increasing (y / x) 0 ltac:(lra)) as Hi.
        rewrite atan_0 in Hi. lra. }
      lra.
  - destruct (gtb y 0); [lra|]. destruct (ltb y 0); lra.
Qed.

Lemma Atan2_right_half (y x : R) :
  0 <= x -> - PI / 2 <= Atan2 y x <= PI / 2.
Proof.
  intros Hx. unfold Atan2, Atan, Pi. pose proof PI_RGT_0 as Hpi.
  pose proof (atan_bound (y / x)) as Hb.
  destruct (gtb x 0); [lra|].
  destruct (ltb x 0) eqn:Hx'; [apply ltb_true in Hx'; lra|].
  destruct (gtb y 0); [lra|]. destruct (ltb y 0); lra.
Qed.

Lemma oblateFix_latitude (n : nat) (z sqx2y2 a e2 : R) :
  0 <= sqx2y2 ->
  forall C latitude : R,
    - PI / 2 <= latitude <= PI / 2 ->
    - PI / 2 <= snd (oblateFix n z sqx2y2 a e2 C latitude) <= PI / 2.
Proof.
  intros Hs. induction n as [|n IH]; intros C latitude Hl; [exact Hl|].
  cbn [oblateFix]. apply IH. now apply Atan2_right_half.
Qed.

(** The latitude that [ECIToLLA] returns always lies in [-pi/2, pi/2], so
    [LatLongDeg] never rejects it; the longitude is the angle of the
    (X, Y) point less the sidereal angle and is not brought back into a
    fixed range. *)
Theorem ECIToLLA_latitude (eciCoords : Vector3) (gmst : float64) :
  - PI / 2 <= Latitude (snd (ECIToLLA eciCoords gmst)) <= PI / 2 /\
  snd (LatLongDeg (snd (ECIToLLA eciCoords gmst))) = None /\
  Longitude (snd (ECIToLLA eciCoords gmst))
  = Atan2 (Y eciCoords) (X eciCoords) - gmst /\
  - PI - gmst < Longitude (snd (ECIToLLA eciCoords gmst)) <= PI - gmst.
Proof.
  unfold ECIToLLA.
  set (s := Sqrt (Pow (X eciCoords) 2 + Pow (Y eciCoords) 2)).
  assert (Hs : 0 <= s) by apply sqrt_pos.
  pose proof (oblateFix_latitude 20 (Z_ eciCoords) s 6378.137
                (2 * ((6378.137 - 6356.7523142) / 6378.137)
                 - Pow ((6378.137 - 6356.7523142) / 6378.137) 2)
                Hs 0.0 (Atan2 (Z_ eciCoords) s)
                (Atan2_right_half _ _ Hs)) as Hl.
  destruct (oblateFix 20 _ _ _ _ _ _) as [C lat].
  cbn [snd] in Hl. cbn [snd Latitude Longitude].
  pose proof (Atan2_range (Y eciCoords) (X eciCoords)) as Hr.
  split; [exact Hl|]. split; [|split; [reflexivity | lra]].
  unfold LatLongDeg; cbn [Latitude Longitude].
  rewrite latitude_check_passes; [reflexivity | exact Hl].
Qed.

Lemma oblateFix_equator (n : nat) (s a e2 : R) :
  0 < s ->
  forall C : R, oblateFix (S n) 0 s a e2 C 0 = (1, 0).
Proof.
  intros Hs.
  assert (Hstep : 1 / Sqrt (1 - e2 * (Sin 0 * Sin 0)) = 1).
  { unfold Sin, Sqrt. rewrite sin_0.
    replace (1 - e2 * (0 * 0)) with 1 by ring. rewrite sqrt_1. lra. }
  assert (Hat : Atan2 (0 + a * 1 * e2 * Sin 0) s = 0).
  { unfold Sin. rewrite sin_0.
    replace (0 + a * 1 * e2 * 0) with 0 by ring.
    unfold Atan2. destruct (gtb s 0) eqn:Hg.
    - unfold Atan, Rdiv. rewrite Rmult_0_l. apply atan_0.
    - apply gtb_false in Hg. lra. }
  induction n as [|n IH]; intros C.
  - cbn [oblateFix]. now rewrite Hstep, Hat.
  - change (oblateFix (S (S n)) 0 s a e2 C 0)
      with (oblateFix (S n) 0 s a e2
              (1 / Sqrt (1 - e2 * (Sin 0 * Sin 0)))
              (Atan2 (0 + a * (1 / Sqrt (1 - e2 * (Sin 0 * Sin 0))) * e2 * Sin 0)
                 s)).
    rewrite Hstep, Hat. apply IH.
Qed.

(** A position in the equatorial plane, off the axis, gets latitude 0, an
    altitude of its distance from the axis less the equatorial radius
    6378.137, and the circular speed for that distance. *)
Theorem ECIToLLA_equator (eciCoords : Vector3) (gmst : float64) :
  Z_ eciCoords = 0 ->
  0 < X eciCoords * X eciCoords + Y eciCoords * Y eciCoords ->
  ECIToLLA eciCoords gmst
  = (sqrt (X eciCoords * X eciCoords + Y eciCoords * Y eciCoords) - 6378.137,
     sqrt (398600.4418
           / sqrt (X eciCoords * X eciCoords + Y eciCoords * Y eciCoords)),
     mkLatLong 0 (Atan2 (Y eciCoords) (X eciCoords) - gmst)).
Proof.
  intros Hz Hxy. unfold ECIToLLA. rewrite Hz.
  replace (Pow (X eciCoords) 2 + Pow (Y eciCoords) 2)
    with (X eciCoords * X eciCoords + Y eciCoords * Y eciCoords)
    by (unfold Pow, float64; ring).
  unfold Sqrt.
  set (s := sqrt (X eciCoords * X eciCoords + Y eciCoords * Y eciCoords)).
  assert (Hs : 0 < s) by now apply sqrt_lt_R0.
  assert (Hat : Atan2 0 s = 0).
  { unfold Atan2. destruct (gtb s 0) eqn:Hg.
    - unfold Atan, Rdiv. rewrite Rmult_0_l. apply atan_0.
    - apply gtb_false in Hg. lra. }
  rewrite Hat, (oblateFix_equator 19 s _ _ Hs).
  unfold Cos. rewrite cos_0.
  replace (s / 1 - 6378.137 * 1) with (s - 6378.137) by lra.
  replace (s - 6378.137 + 6378.137) with s by lra.
  reflexivity.
Qed.

Lemma ECIToLLA_equator_witness :
  Z_ (mkVector3 7000 0 0) = 0 /\
  0 < X (mkVector3 7000 0 0) * X (mkVector3 7000 0 0)
      + Y (mkVector3 7000 0 0) * Y (mkVector3 7000 0 0) /\
  ECIToLLA (mkVector3 7000 0 0) 0
  = (sqrt (X (mkVector3 7000 0 0) * X (mkVector3 7000 0 0)
           + Y (mkVector3 7000 0 0) * Y (mkVector3 7000 0 0)) - 6378.137,
     sqrt (398600.4418
           / sqrt (X (mkVector3 7000 0 0) * X (mkVector3 7000 0 0)
                   + Y (mkVector3 7000 0 0) * Y (mkVector3 7000 0 0))),
     mkLatLong 0 (Atan2 (Y (mkVector3 7000 0 0)) (X (mkVector3 7000 0 0)) - 0)).
Proof.
  assert (H1 : Z_ (mkVector3 7000 0 0) = 0) by reflexivity.
  assert (H2 : 0 < X (mkVector3 7000 0 0) * X (mkVector3 7000 0 0)
                   + Y (mkVector3 7000 0 0) * Y (mkVector3 7000 0 0))
    by (cbn [X Y]; lra).
  split; [exact H1|]. split; [exact H2|].
  exact (ECIToLLA_equator (mkVector3 7000 0 0) 0 H1 H2).
Defined.

(** ** The observer on the ellipsoid *)

(** At altitude zero, and for a flattening in [0, 1) and a positive
    radius, the position that [LLAToECI] returns lies on the ellipsoid of
    revolution with semi-axes [radiusearthkm] and
    [radiusearthkm * (1 - f)]. *)
Theorem LLAToECI_on_ellipsoid (obsCoords : LatLongAlt) (jday : float64)
  (gravConst : GravConst) :
  0 <= f gravConst < 1 ->
  0 < radiusearthkm gravConst ->
  AltitudeKm obsCoords = 0 ->
  (X (LLAToECI obsCoords jday gravConst) * X (LLAToECI obsCoords jday gravConst)
   + Y (LLAToECI obsCoords jday gravConst)
     * Y (LLAToECI obsCoords jday gravConst))
  / (radiusearthkm gravConst * radiusearthkm gravConst)
  + Z_ (LLAToECI obsCoords jday gravConst)
    * Z_ (LLAToECI obsCoords jday gravConst)
    / (radiusearthkm gravConst * (1 - f gravConst)
       * (radiusearthkm gravConst * (1 - f gravConst)))
  = 1.
Proof.
  intros Hf Ha Halt. unfold LLAToECI; cbn [X Y Z_]. rewrite Halt.
  unfold Sin, Cos, Sqrt.
  set (th := Mod (ThetaG_JD jday + Longitude (LatLong_ obsCoords)) TWOPI).
  set (lat := Latitude (LatLong_ obsCoords)).
  set (a := radiusearthkm gravConst). set (fl := f gravConst).
  fold a in Ha. fold fl in Hf.
  set (u := 1 + fl * (fl - 2) * sin lat * sin lat).
  pose proof (sin2_cos2 lat) as Hl. pose proof (sin2_cos2 th) as Ht.
  unfold Rsqr in Hl, Ht.
  assert (Hu : 0 < u).
  { unfold u.
    assert (H1 : 0 <= sin lat * sin lat <= 1) by nra.
    assert (H2 : 0 <= fl * (2 - fl)) by nra.
    assert (H3 : 0 < (1 - fl) * (1 - fl)) by nra.
    nra. }
  assert (Hq : 0 < sqrt u) by now apply sqrt_lt_R0.
  assert (Hqq : sqrt u * sqrt u = u) by (apply sqrt_sqrt; lra).
  set (k := 1 / sqrt u).
  assert (Hk : k * k * u = 1).
  { unfold k. rewrite <- Hqq at 3. field. lra. }
  unfold float64 in *.
  replace ((a * k + 0) * cos lat * cos th * ((a * k + 0) * cos lat * cos th)
           + (a * k + 0) * cos lat * sin th * ((a * k + 0) * cos lat * sin th))
    with (a * a * (k * k * (cos lat * cos lat
                            * (sin th * sin th + cos th * cos th)))) by ring.
  rewrite Ht.
  replace ((a * (k * (1 - fl) * (1 - fl)) + 0) * sin lat
           * ((a * (k * (1 - fl) * (1 - fl)) + 0) * sin lat))
    with (a * (1 - fl) * (a * (1 - fl))
          * (k * k * ((1 - fl) * (1 - fl) * (sin lat * sin lat)))) by ring.
  replace (cos lat * cos lat) with (1 - sin lat * sin lat) by lra.
  transitivity (k * k * u); [|exact Hk].
  unfold u. field. split; lra.
Qed.

Lemma LLAToECI_on_ellipsoid_witness :
  0 <= f (fst (getGravConst "wgs84")) < 1 /\
  0 < radiusearthkm (fst (getGravConst "wgs84")) /\
  AltitudeKm londonDeg = 0 /\
  (X (LLAToECI londonDeg 2451179.5 (fst (getGravConst "wgs84")))
   * X (LLAToECI londonDeg 2451179.5 (fst (getGravConst "wgs84")))
   + Y (LLAToECI londonDeg 2451179.5 (fst (getGravConst "wgs84")))
     * Y (LLAToECI londonDeg 2451179.5 (fst (getGravConst "wgs84"))))
  / (radiusearthkm (fst (getGravConst "wgs84"))
     * radiusearthkm (fst (getGravConst "wgs84")))
  + Z_ (LLAToECI londonDeg 2451179.5 (fst (getGravConst "wgs84")))
    * Z_ (LLAToECI londonDeg 2451179.5 (fst (getGravConst "wgs84")))
    / (radiusearthkm (fst (getGravConst "wgs84"))
       * (1 - f (fst (getGravConst "wgs84")))
       * (radiusearthkm (fst (getGravConst "wgs84"))
          * (1 - f (fst (getGravConst "wgs84")))))
  = 1.
Proof.
  assert (H1 : 0 <= f (fst (getGravConst "wgs84")) < 1)
    by (rewrite getGravConst_wgs84; cbn [fst f]; lra).
  assert (H2 : 0 < radiusearthkm (fst (getGravConst "wgs84")))
    by (rewrite getGravConst_wgs84; cbn [fst radiusearthkm]; lra).
  assert (H3 : AltitudeKm londonDeg = 0) by reflexivity.
  split; [exact H1|]. split; [exact H2|]. split; [exact H3|].
  exact (LLAToECI_on_ellipsoid londonDeg 2451179.5
           (fst (getGravConst "wgs84")) H1 H2 H3).
Defined.

(** Every gravity model that [getGravConst] returns is usable: [mu], the
    radius, [xke] and [j2] are positive, the flattening lies strictly
    between 0 and 1 (so the curvature factor of [LLAToECI] is defined),
    and [tumin] is the reciprocal of [xke]. *)
Theorem getGravConst_usable (name : string) :
  snd (getGravConst name) = None ->
  0 < mu (fst (getGravConst name)) /\
  0 < radiusearthkm (fst (getGravConst name)) /\
  0 < xke (fst (getGravConst name)) /\
  0 < j2 (fst (getGravConst name)) /\
  0 < f (fst (getGravConst name)) < 1 /\
  xke (fst (getGravConst name)) * tumin (fst (getGravConst name)) = 1.
Proof.
  assert (Hd : forall q, 0 < q -> 0 < 60.0 / Sqrt q /\
                          60.0 / Sqrt q * (1.0 / (60.0 / Sqrt q)) = 1).
  { intros q Hq. unfold Sqrt.
    assert (Hs : 0 < sqrt q) by now apply sqrt_lt_R0.
    assert (Hi : 0 < / sqrt q) by now apply Rinv_0_lt_compat.
    assert (Hx : 0 < 60.0 / sqrt q) by (unfold Rdiv; nra).
    split; [exact Hx|].
    replace 1.0 with 1 by lra. unfold Rdiv. rewrite Rmult_1_l.
    apply Rinv_r. unfold Rdiv in Hx. lra. }
  destruct (gravity_name_cases name) as [->|[->|[->|(H1 & H2 & H3)]]].
  - rewrite getGravConst_wgs72old; cbn [fst snd mu radiusearthkm xke j2 f tumin].
    intros _. repeat split; lra.
  - rewrite getGravConst_wgs72; cbn [fst snd mu radiusearthkm xke j2 f tumin].
    intros _.
    destruct (Hd (6378.135 * 6378.135 * 6378.135 / 398600.8) ltac:(lra)).
    repeat split; try lra; assumption.
  - rewrite getGravConst_wgs84; cbn [fst snd mu radiusearthkm xke j2 f tumin].
    intros _.
    destruct (Hd (6378.137 * 6378.137 * 6378.137 / 398600.5) ltac:(lra)).
    repeat split; try lra; assumption.
  - rewrite getGravConst_other by assumption. cbn [snd]. discriminate.
Qed.

Lemma getGravConst_usable_witness :
  snd (getGravConst "wgs84") = None /\
  0 < mu (fst (getGravConst "wgs84")) /\
  0 < radiusearthkm (fst (getGravConst "wgs84")) /\
  0 < xke (fst (getGravConst "wgs84")) /\
  0 < j2 (fst (getGravConst "wgs84")) /\
  0 < f (fst (getGravConst "wgs84")) < 1 /\
  xke (fst (getGravConst "wgs84")) * tumin (fst (getGravConst "wgs84")) = 1.
Proof.
  assert (H : snd (getGravConst "wgs84") = None) by reflexivity.
  split; [exact H|].
  exact (getGravConst_usable "wgs84" H).
Defined.

(** ** The topocentric frame *)




(** ** Day of year, calendar date and Julian day *)

Ltac zdiv := Z.to_euclidean_division_equations; lia.

Lemma Int_part_div (a b : Z) :
  (0 < b)%Z -> Int_part (IZR a / IZR b) = (a / b)%Z.
Proof.
  intros Hb. apply Int_part_unique.
  assert (Hb' : 0 < IZR b) by now apply IZR_lt.
  pose proof (Z.div_mod a b ltac:(lia)) as Hdm.
  pose proof (Z.mod_pos_bound a b Hb) as [Hr0 Hr1].
  apply (f_equal IZR) in Hdm. rewrite plus_IZR, mult_IZR in Hdm.
  apply IZR_le in Hr0. apply IZR_lt in Hr1.
  assert (Hi : 0 < / IZR b) by now apply Rinv_0_lt_compat.
  split.
  - apply (Rmult_le_reg_r (IZR b)); [exact Hb'|].
    unfold Rdiv. rewrite Rmult_assoc, Rinv_l; lra.
  - apply (Rmult_lt_reg_r (IZR b)); [exact Hb'|].
    unfold Rdiv. rewrite Rmult_assoc, Rinv_l; lra.
Qed.

(** The day part of [NewJDay] in whole numbers. *)
Lemma NewJDay_Day (year mon day hr minute : Z) (sec : R) :
  Day (NewJDay year mon day hr minute sec)
  = IZR (367 * year - (7 * (year + (mon + 9) / 12)) / 4 + (275 * mon) / 9 + day)
    + 1721013.5.
Proof.
  unfold NewJDay, Floor; cbn [Day].
  replace ((IZR mon + 9) / 12.0) with (IZR (mon + 9) / IZR 12)
    by (rewrite plus_IZR; lra).
  rewrite Int_part_div by lia.
  replace (7 * (IZR year + IZR ((mon + 9) / 12)) * 0.25)
    with (IZR (7 * (year + (mon + 9) / 12)) / IZR 4)
    by (rewrite mult_IZR, plus_IZR; lra).
  rewrite Int_part_div by lia.
  replace (275 * IZR mon / 9.0) with (IZR (275 * mon) / IZR 9)
    by (rewrite mult_IZR; lra).
  rewrite Int_part_div by lia.
  rewrite !plus_IZR, minus_IZR, mult_IZR. lra.
Qed.

(** Replaces an entry of a month table at a known index by its value. *)
Ltac table_entry :=
  repeat match goal with
         | |- context [nth ?a ?l ?d] =>
             let v := eval vm_compute in (nth a l d) in
             change (nth a l d) with v
         | |- context [cumDays ?l ?k] =>
             let v := eval vm_compute in (cumDays l k) in
             change (cumDays l k) with v
         end.

(** [NewJDay] and the month tables of [days2mdhms] agree on the calendar:
    from the first of a month to the first of the next there are as many
    days as the table of the year gives the month, February having 29
    exactly when the year is divisible by 4; and 31 days lead from
    1 December to 1 January of the next year. *)
Theorem NewJDay_month_lengths (year mon : Z) :
  (1 <= mon <= 11)%Z ->
  Day (NewJDay year (mon + 1) 1 0 0 0) - Day (NewJDay year mon 1 0 0 0)
  = IZR (nth (Z.to_nat (mon - 1)) (monthTable year) 0%Z) /\
  Day (NewJDay (year + 1) 1 1 0 0 0) - Day (NewJDay year 12 1 0 0 0) = 31.
Proof.
  intros Hm. rewrite !NewJDay_Day. split.
  - match goal with
    | |- IZR ?a + _ - (IZR ?b + _) = _ =>
        replace (IZR a + 1721013.5 - (IZR b + 1721013.5)) with (IZR (a - b))
          by (rewrite minus_IZR; lra)
    end.
    f_equal. unfold monthTable.
    assert (Hc : (mon = 1 \/ mon = 2 \/ mon = 3 \/ mon = 4 \/ mon = 5 \/ mon = 6
                  \/ mon = 7 \/ mon = 8 \/ mon = 9 \/ mon = 10 \/ mon = 11)%Z)
      by lia.
    destruct (Z.eqb_spec (Z.rem year 4) 0) as [Hy|Hy];
      repeat (destruct Hc as [->|Hc]; [table_entry; zdiv|]);
      subst mon; table_entry; zdiv.
  - match goal with
    | |- IZR ?a + _ - (IZR ?b + _) = _ =>
        replace (IZR a + 1721013.5 - (IZR b + 1721013.5)) with (IZR (a - b))
          by (rewrite minus_IZR; lra)
    end.
    replace 31 with (IZR 31) by reflexivity. f_equal. zdiv.
Qed.

Lemma NewJDay_month_lengths_witness :
  (1 <= 2 <= 11)%Z /\
  Day (NewJDay 2008 (2 + 1) 1 0 0 0) - Day (NewJDay 2008 2 1 0 0 0)
  = IZR (nth (Z.to_nat (2 - 1)) (monthTable 2008) 0%Z) /\
  Day (NewJDay (2008 + 1) 1 1 0 0 0) - Day (NewJDay 2008 12 1 0 0 0) = 31.
Proof.
  assert (H : (1 <= 2 <= 11)%Z) by lia.
  split; [exact H|].
  exact (NewJDay_month_lengths 2008 2 H).
Defined.

(** For a clock time within a day the fraction lies in [0, 1); and the
    day part is always a whole number plus one half. *)
Theorem NewJDay_fraction (year mon day hr minute : Z) (sec : float64) :
  (0 <= hr <= 23)%Z ->
  (0 <= minute <= 59)%Z ->
  0 <= sec < 60 ->
  0 <= Fraction (NewJDay year mon day hr minute sec) < 1 /\
  exists k : Z, Day (NewJDay year mon day hr minute sec) = IZR k + 0.5.
Proof.
  intros Hh Hm Hs. split.
  - unfold NewJDay; cbn [Fraction].
    destruct Hh as [Hh0 Hh1]. destruct Hm as [Hm0 Hm1].
    apply IZR_le in Hh0, Hh1, Hm0, Hm1. unfold float64 in *. lra.
  - rewrite NewJDay_Day.
    match goal with
    | |- exists k, IZR ?a + _ = _ => exists (a + 1721013)%Z
    end.
    rewrite (plus_IZR _ 1721013). lra.
Qed.

Lemma NewJDay_fraction_witness :
  (0 <= 12 <= 23)%Z /\
  (0 <= 0 <= 59)%Z /\
  0 <= 0 < 60 /\
  0 <= Fraction (NewJDay 2000 1 1 12 0 0) < 1 /\
  exists k : Z, Day (NewJDay 2000 1 1 12 0 0) = IZR k + 0.5.
Proof.
  assert (H1 : (0 <= 12 <= 23)%Z) by lia.
  assert (H2 : (0 <= 0 <= 59)%Z) by lia.
  assert (H3 : 0 <= 0 < 60) by lra.
  split; [exact H1|]. split; [exact H2|]. split; [exact H3|].
  exact (NewJDay_fraction 2000 1 1 12 0 0 H1 H2 H3).
Defined.

Lemma monthLoopZ_date_common (d : Z) :
  (d <= 365)%Z ->
  exists m c : Z,
    monthLoopZ 22 lmonthCommon d 1 0 = Returns (m, c) /\
    (1 <= m <= 12)%Z /\
    c = cumDays lmonthCommon (Z.to_nat (m - 1)) /\
    (d <= c + nth (Z.to_nat (m - 1)) lmonthCommon 0)%Z /\
    (m = 1 \/ c < d)%Z.
Proof.
  intros Hd.
  do 12 (month_step;
         [|do 2 eexists; split; [reflexivity|]; table_entry; repeat split; lia]).
  lia.
Qed.

Lemma monthLoopZ_date_leap (d : Z) :
  (d <= 366)%Z ->
  exists m c : Z,
    monthLoopZ 22 lmonthLeap d 1 0 = Returns (m, c) /\
    (1 <= m <= 12)%Z /\
    c = cumDays lmonthLeap (Z.to_nat (m - 1)) /\
    (d <= c + nth (Z.to_nat (m - 1)) lmonthLeap 0)%Z /\
    (m = 1 \/ c < d)%Z.
Proof.
  intros Hd.
  do 12 (month_step;
         [|do 2 eexists; split; [reflexivity|]; table_entry; repeat split; lia]).
  lia.
Qed.

(** What [days2mdhms] returns when the day of the year is within the
    year: the month and the running total of the integer loop, the day as
    the rest, and the clock time of the fraction. *)
Lemma days2mdhms_returns (year : Z) (x : R) :
  (Int_part x <= yearDays year)%Z ->
  exists m c : Z,
    (1 <= m <= 12)%Z /\
    c = cumDays (monthTable year) (Z.to_nat (m - 1)) /\
    (Int_part x <= c + nth (Z.to_nat (m - 1)) (monthTable year) 0)%Z /\
    (m = 1 \/ c < Int_part x)%Z /\
    days2mdhms year x
    = Returns (IZR m, IZR (Int_part x - c), fst (fst (dayClock x)),
               snd (fst (dayClock x)), snd (dayClock x)).
Proof.
  intros Hd.
  assert (Hloop : exists m c : Z,
            monthLoopZ 22 (monthTable year) (Int_part x) 1 0 = Returns (m, c) /\
            (1 <= m <= 12)%Z /\
            c = cumDays (monthTable year) (Z.to_nat (m - 1)) /\
            (Int_part x <= c + nth (Z.to_nat (m - 1)) (monthTable year) 0)%Z /\
            (m = 1 \/ c < Int_part x)%Z).
  { unfold monthTable, yearDays in *. destruct (Z.rem year 4 =? 0)%Z.
    - now apply monthLoopZ_date_leap.
    - now apply monthLoopZ_date_common. }
  destruct Hloop as (m & c & Hl & Hm & Hc & Hle & Hlt).
  exists m, c. repeat (split; [assumption|]).
  unfold days2mdhms. rewrite days2mdhms_loop.
  change (if (Z.rem year 4 =? 0)%Z then lmonthLeap else lmonthCommon)
    with (monthTable year).
  rewrite Hl. unfold dayClock; cbn [fst snd]. unfold Floor at 1.
  now rewrite minus_IZR.
Qed.

Lemma Int_part_range (t : R) (n : Z) :
  0 <= t < IZR n -> (0 <= Int_part t <= n - 1)%Z.
Proof.
  intros [H0 H1]. pose proof (Int_part_bounds t) as [Ha Hb].
  split.
  - assert (H : (-1 < Int_part t)%Z) by (apply lt_IZR; lra). lia.
  - assert (H : (Int_part t < n)%Z) by (apply lt_IZR; lra). lia.
Qed.

(** The clock time of a day fraction: whole hours in 0..23, whole minutes
    in 0..59, seconds in [0, 60), and together they are the fraction. *)
Lemma dayClock_spec (x : R) :
  exists (h mi : Z) (sec : R),
    dayClock x = (IZR h, IZR mi, sec) /\
    (0 <= h <= 23)%Z /\ (0 <= mi <= 59)%Z /\ 0 <= sec < 60 /\
    x = IZR (Int_part x) + (IZR h * 3600 + IZR mi * 60 + sec) / 86400.
Proof.
  unfold dayClock, Floor.
  set (d := IZR (Int_part x)).
  set (t1 := (x - d) * 24.0).
  set (h := Int_part t1).
  set (t2 := (t1 - IZR h) * 60.0).
  set (mi := Int_part t2).
  pose proof (Int_part_bounds x) as Hx. fold d in Hx.
  pose proof (Int_part_bounds t1) as Ht1. fold h in Ht1.
  pose proof (Int_part_bounds t2) as Ht2. fold mi in Ht2.
  assert (H1 : 0 <= t1 < IZR 24) by (unfold t1; lra).
  assert (H2 : 0 <= t2 < IZR 60) by (unfold t2; lra).
  exists h, mi, ((t2 - IZR mi) * 60.0).
  split; [reflexivity|].
  split; [exact (Int_part_range t1 24 H1)|].
  split; [exact (Int_part_range t2 60 H2)|].
  split; [lra|].
  unfold t2, t1. lra.
Qed.

(** For a day of the year from 1 to the days of the year's table,
    [days2mdhms] returns a month from 1 to 12 and a day from 1 to the
    length of that month, and the days of the months before it plus the
    day give the day of the year back. *)
Theorem days2mdhms_date (year : Z) (epochDays : float64) :
  (1 <= Int_part epochDays <= yearDays year)%Z ->
  exists (m dd : Z) (hr min sec : float64),
    days2mdhms year epochDays = Returns (IZR m, IZR dd, hr, min, sec) /\
    (1 <= m <= 12)%Z /\
    (1 <= dd <= nth (Z.to_nat (m - 1)) (monthTable year) 0)%Z /\
    (cumDays (monthTable year) (Z.to_nat (m - 1)) + dd = Int_part epochDays)%Z.
Proof.
  intros [H1 Hd].
  destruct (days2mdhms_returns year epochDays Hd)
    as (m & c & Hm & Hc & Hle & Hlt & Hr).
  exists m, (Int_part epochDays - c)%Z. do 3 eexists.
  split; [exact Hr|]. split; [exact Hm|].
  assert (Hc0 : m = 1%Z -> c = 0%Z).
  { intros ->. rewrite Hc. unfold monthTable.
    destruct (Z.rem year 4 =? 0)%Z; reflexivity. }
  split; [|lia]. destruct Hlt as [Hm1|Hlt]; [rewrite (Hc0 Hm1) in *|]; lia.
Qed.

Lemma Int_part_epoch_2008 : Int_part 264.51782528 = 264%Z.
Proof. apply Int_part_unique. lra. Qed.

Lemma days2mdhms_date_witness :
  (1 <= Int_part 264.51782528 <= yearDays 2008)%Z /\
  exists (m dd : Z) (hr min sec : float64),
    days2mdhms 2008 264.51782528 = Returns (IZR m, IZR dd, hr, min, sec) /\
    (1 <= m <= 12)%Z /\
    (1 <= dd <= nth (Z.to_nat (m - 1)) (monthTable 2008) 0)%Z /\
    (cumDays (monthTable 2008) (Z.to_nat (m - 1)) + dd
     = Int_part 264.51782528)%Z.
Proof.
  assert (H : (1 <= Int_part 264.51782528 <= yearDays 2008)%Z).
  { rewrite Int_part_epoch_2008. change (yearDays 2008) with 366%Z. lia. }
  split; [exact H|].
  exact (days2mdhms_date 2008 264.51782528 H).
Defined.

(** Whenever the day of the year is not beyond the year, the hour, minute
    and second that [days2mdhms] returns are whole hours in 0..23, whole
    minutes in 0..59 and seconds in [0, 60), and they add up to the
    fraction of [epochDays]. *)
Theorem days2mdhms_clock (year : Z) (epochDays : float64) :
  (Int_part epochDays <= yearDays year)%Z ->
  exists (mon day : float64) (h mi : Z) (sec : float64),
    days2mdhms year epochDays = Returns (mon, day, IZR h, IZR mi, sec) /\
    (0 <= h <= 23)%Z /\ (0 <= mi <= 59)%Z /\ 0 <= sec < 60 /\
    epochDays
    = Floor epochDays + (IZR h * 3600 + IZR mi * 60 + sec) / 86400.
Proof.
  intros Hd.
  destruct (days2mdhms_returns year epochDays Hd)
    as (m & c & _ & _ & _ & _ & Hr).
  destruct (dayClock_spec epochDays) as (h & mi & sec & Hk & Hh & Hmi & Hs & He).
  rewrite Hk in Hr; cbn [fst snd] in Hr.
  exists (IZR m), (IZR (Int_part epochDays - c)), h, mi, sec.
  repeat (split; [assumption|]). exact He.
Qed.

Lemma days2mdhms_clock_witness :
  (Int_part 264.51782528 <= yearDays 2008)%Z /\
  exists (mon day : float64) (h mi : Z) (sec : float64),
    days2mdhms 2008 264.51782528 = Returns (mon, day, IZR h, IZR mi, sec) /\
    (0 <= h <= 23)%Z /\ (0 <= mi <= 59)%Z /\ 0 <= sec < 60 /\
    264.51782528
    = Floor 264.51782528 + (IZR h * 3600 + IZR mi * 60 + sec) / 86400.
Proof.
  assert (H : (Int_part 264.51782528 <= yearDays 2008)%Z).
  { rewrite Int_part_epoch_2008. change (yearDays 2008) with 366%Z. lia. }
  split; [exact H|].
  exact (days2mdhms_clock 2008 264.51782528 H).
Defined.

Lemma monthLoopZ_january (year d : Z) :
  (d <= 31)%Z -> monthLoopZ 22 (monthTable year) d 1 0 = Returns (1%Z, 0%Z).
Proof.
  intros Hd. unfold monthTable.
  destruct (Z.rem year 4 =? 0)%Z;
    rewrite (monthLoopZ_step 21 _ d 1 0 31) by reflexivity;
    (destruct (Z.ltb_spec (0 + 31) d); [lia | reflexivity]).
Qed.

(** A day of the year below 1 is not rejected: the month is 1 and the
    day of the month is the whole part of [epochDays], which is zero or
    negative. *)
Theorem days2mdhms_before_first_day (year : Z) (epochDays : float64) :
  epochDays < 1 ->
  exists hr min sec : float64,
    days2mdhms year epochDays = Returns (1, Floor epochDays, hr, min, sec) /\
    Floor epochDays <= 0.
Proof.
  intros Hx.
  pose proof (Int_part_bounds epochDays) as [Hlo Hhi].
  assert (Hd : (Int_part epochDays <= 0)%Z).
  { assert (H : (Int_part epochDays < 1)%Z) by (apply lt_IZR; lra). lia. }
  unfold days2mdhms. rewrite days2mdhms_loop.
  change (if (Z.rem year 4 =? 0)%Z then lmonthLeap else lmonthCommon)
    with (monthTable year).
  rewrite monthLoopZ_january by lia.
  replace (Floor epochDays - IZR 0) with (Floor epochDays) by lra.
  do 3 eexists. split; [reflexivity|].
  unfold Floor. now apply IZR_le in Hd.
Qed.

Lemma days2mdhms_before_first_day_witness :
  0.5 < 1 /\
  exists hr min sec : float64,
    days2mdhms 2008 0.5 = Returns (1, Floor 0.5, hr, min, sec) /\
    Floor 0.5 <= 0.
Proof.
  assert (H : 0.5 < 1) by lra.
  split; [exact H|].
  exact (days2mdhms_before_first_day 2008 0.5 H).
Defined.

(** From the day of the year to the Julian date, through the month and
    day. *)
Lemma julian_date_of_day (year : Z) (epochDays : R) :
  (Int_part epochDays <= yearDays year)%Z ->
  exists mon day hr min sec : float64,
    days2mdhms year epochDays = Returns (mon, day, hr, min, sec) /\
    Day (NewJDay year (trunc mon) (trunc day) (trunc hr) (trunc min) sec)
    = Day (NewJDay year 1 1 0 0 0) + IZR (Int_part epochDays) - 1 /\
    Fraction (NewJDay year (trunc mon) (trunc day) (trunc hr) (trunc min) sec)
    = epochDays - IZR (Int_part epochDays).
Proof.
  intros Hd.
  destruct (days2mdhms_returns year epochDays Hd)
    as (m & c & Hm & Hc & _ & _ & Hr).
  destruct (dayClock_spec epochDays) as (h & mi & sec & Hk & _ & _ & _ & He).
  rewrite Hk in Hr; cbn [fst snd] in Hr.
  exists (IZR m), (IZR (Int_part epochDays - c)), (IZR h), (IZR mi), sec.
  split; [exact Hr|]. rewrite !trunc_IZR. split.
  - rewrite !NewJDay_Day.
    match goal with
    | |- IZR ?a + _ = IZR ?b + _ + IZR ?d - 1 =>
        replace (IZR b + 1721013.5 + IZR d - 1)
          with (IZR (b + d - 1) + 1721013.5)
          by (rewrite minus_IZR, plus_IZR; lra)
    end.
    f_equal. f_equal. rewrite Hc. clear Hc Hr. unfold monthTable.
    assert (Hcases : (m = 1 \/ m = 2 \/ m = 3 \/ m = 4 \/ m = 5 \/ m = 6
                      \/ m = 7 \/ m = 8 \/ m = 9 \/ m = 10 \/ m = 11
                      \/ m = 12)%Z) by lia.
    destruct (Z.eqb_spec (Z.rem year 4) 0) as [Hy|Hy];
      repeat (destruct Hcases as [->|Hcases]; [table_entry; zdiv|]);
      subst m; table_entry; zdiv.
  - unfold NewJDay; cbn [Fraction]. unfold float64 in *. lra.
Qed.

(** The Julian date that [NewSatFromTLE] builds from the month, day and
    clock time of [days2mdhms] is the Julian date of 1 January, 0h, of
    the year plus the day of the year less one: the day part moves by the
    whole days and the fraction is the fraction of [epochDays]. *)
Theorem NewJDay_of_days2mdhms (year : Z) (epochDays : float64) :
  (Int_part epochDays <= yearDays year)%Z ->
  exists mon day hr min sec : float64,
    days2mdhms year epochDays = Returns (mon, day, hr, min, sec) /\
    Day (NewJDay year (trunc mon) (trunc day) (trunc hr) (trunc min) sec)
    = Day (NewJDay year 1 1 0 0 0) + IZR (Int_part epochDays) - 1 /\
    Fraction (NewJDay year (trunc mon) (trunc day) (trunc hr) (trunc min) sec)
    = epochDays - IZR (Int_part epochDays) /\
    Single (NewJDay year (trunc mon) (trunc day) (trunc hr) (trunc min) sec)
    = Single (NewJDay year 1 1 0 0 0) + epochDays - 1.
Proof.
  intros Hd.
  destruct (julian_date_of_day year epochDays Hd)
    as (mon & day & hr & min & sec & Hr & HDay & HFrac).
  exists mon, day, hr, min, sec.
  split; [exact Hr|]. split; [exact HDay|]. split; [exact HFrac|].
  unfold Single. rewrite HDay, HFrac.
  assert (Hf0 : Fraction (NewJDay year 1 1 0 0 0) = 0)
    by (unfold NewJDay; cbn [Fraction]; lra).
  rewrite Hf0. unfold float64. lra.
Qed.

Lemma NewJDay_of_days2mdhms_witness :
  (Int_part 264.51782528 <= yearDays 2008)%Z /\
  exists mon day hr min sec : float64,
    days2mdhms 2008 264.51782528 = Returns (mon, day, hr, min, sec) /\
    Day (NewJDay 2008 (trunc mon) (trunc day) (trunc hr) (trunc min) sec)
    = Day (NewJDay 2008 1 1 0 0 0) + IZR (Int_part 264.51782528) - 1 /\
    Fraction (NewJDay 2008 (trunc mon) (trunc day) (trunc hr) (trunc min) sec)
    = 264.51782528 - IZR (Int_part 264.51782528) /\
    Single (NewJDay 2008 (trunc mon) (trunc day) (trunc hr) (trunc min) sec)
    = Single (NewJDay 2008 1 1 0 0 0) + 264.51782528 - 1.
Proof.
  assert (H : (Int_part 264.51782528 <= yearDays 2008)%Z).
  { rewrite Int_part_epoch_2008. change (yearDays 2008) with 366%Z. lia. }
  split; [exact H|].
  exact (NewJDay_of_days2mdhms 2008 264.51782528 H).
Defined.

(** ** The century rule and the leap-year rule *)

(** Every two-digit epoch year resolves to a year from 1957 to 2056 whose
    last two digits it is, two different epoch years resolve to different
    years, and on those years the divisible-by-4 test of [days2mdhms] is
    the Gregorian leap-year rule. *)
Theorem epochYear_two_digits (y : Z) :
  (0 <= y <= 99)%Z ->
  (1957 <= epochYear y <= 2056)%Z /\
  (epochYear y mod 100 = y)%Z /\
  (forall y' : Z, (0 <= y' <= 99)%Z -> epochYear y' = epochYear y -> y' = y) /\
  (Z.rem (epochYear y) 4 = 0%Z <-> gregorianLeap (epochYear y)) /\
  (yearDays (epochYear y) = 366%Z <-> gregorianLeap (epochYear y)).
Proof.
  intros Hy.
  assert (He : forall z, (0 <= z <= 99)%Z ->
                 epochYear z = if (z <? 57)%Z then (z + 2000)%Z else (z + 1900)%Z).
  { intros z Hz. apply epochYear_pivot. lia. }
  rewrite (He y Hy).
  assert (Hleap : forall yr, (1957 <= yr <= 2056)%Z ->
                    (Z.rem yr 4 = 0%Z <-> gregorianLeap yr)).
  { intros yr Hr. unfold gregorianLeap. split.
    - intros H. split; [zdiv|].
      destruct (Z.eq_dec yr 2000) as [->|Hne]; [right; reflexivity|].
      left. zdiv.
    - intros [H _]. zdiv. }
  destruct (Z.ltb_spec y 57) as [Hlt|Hge].
  - split; [lia|]. split; [zdiv|]. split.
    + intros y' Hy' Heq. rewrite (He y' Hy') in Heq.
      destruct (Z.ltb_spec y' 57); lia.
    + split; [apply Hleap; lia|].
      rewrite <- Hleap by lia. unfold yearDays.
      destruct (Z.eqb_spec (Z.rem (y + 2000) 4) 0); split; intros; lia || congruence.
  - split; [lia|]. split; [zdiv|]. split.
    + intros y' Hy' Heq. rewrite (He y' Hy') in Heq.
      destruct (Z.ltb_spec y' 57); lia.
    + split; [apply Hleap; lia|].
      rewrite <- Hleap by lia. unfold yearDays.
      destruct (Z.eqb_spec (Z.rem (y + 1900) 4) 0); split; intros; lia || congruence.
Qed.

Lemma epochYear_two_digits_witness :
  (0 <= 0 <= 99)%Z /\
  (1957 <= epochYear 0 <= 2056)%Z /\
  (epochYear 0 mod 100 = 0)%Z /\
  (forall y' : Z, (0 <= y' <= 99)%Z -> epochYear y' = epochYear 0 -> y' = 0%Z) /\
  (Z.rem (epochYear 0) 4 = 0%Z <-> gregorianLeap (epochYear 0)) /\
  (yearDays (epochYear 0) = 366%Z <-> gregorianLeap (epochYear 0)).
Proof.
  assert (H : (0 <= 0 <= 99)%Z) by lia.
  split; [exact H|].
  exact (epochYear_two_digits 0 H).
Defined.

(** ** More on the parser *)


Lemma XPDOTP_eq : XPDOTP = 1440 / (2 * PI).
Proof. unfold XPDOTP, Pi. f_equal; [lra | f_equal; lra]. Qed.

Section ParserMore.

Variable atof : string -> float64 * option error.
Variable atoi : string -> Z * option error.
Variable trim : string -> string.
Variable init : string -> float64 -> Satellite -> Satellite.

Ltac pass_field H := rewrite parseField_ok by exact H.

Ltac enter_parse H1 H2 Hg :=
  unfold ParseTLE; rewrite H1, H2; cbn [Nat.eqb negb]; pass_field Hg.


(** A line that does not have 69 bytes is rejected before anything is
    parsed or stored: the record returned is the zero record and the
    error names the line and its length, line 1 being checked first. *)
Theorem ParseTLE_length_check (line1 line2 gravconst : string) :
  String.length line1 <> 69%nat \/ String.length line2 <> 69%nat ->
  ParseTLE atof atoi trim line1 line2 gravconst
  = (zeroSatellite,
     Some (if (String.length line1 =? 69)%nat
           then ("Line2 length should be 69 but was "
                 ++ itoa (String.length line2))%string
           else ("Line1 length should be 69 but was "
                 ++ itoa (String.length line1))%string)).
Proof.
  intros H. unfold ParseTLE.
  destruct (Nat.eqb_spec (String.length line1) 69) as [H1|H1]; cbn [negb];
    [|reflexivity].
  destruct (Nat.eqb_spec (String.length line2) 69) as [H2|H2]; cbn [negb];
    [|reflexivity].
  destruct H; contradiction.
Qed.

(** With two lines of 69 bytes, an unknown gravity model ends the parse
    before any field is read: the record holds the two lines and nothing
    else, and the error quotes the name. *)
Theorem ParseTLE_unknown_gravity (line1 line2 gravconst : string) :
  String.length line1 = 69%nat ->
  String.length line2 = 69%nat ->
  snd (getGravConst gravconst) <> None ->
  ParseTLE atof atoi trim line1 line2 gravconst
  = (mkSatellite line1 line2 0%Z (mkGravConst 0 0 0 0 0 0 0 0 0)
       0%Z 0%Z 0 0 0 0 0 0 0 0 0 0 (mkJDay 0 0),
     Some ("Error on getting gravconst: " ++ gravconst
           ++ " is not a valid gravity model")%string).
Proof.
  intros H1 H2 Hg.
  assert (Ho : getGravConst gravconst
               = (zeroGravConst,
                  Some (gravconst ++ " is not a valid gravity model")%string)).
  { destruct (gravity_name_cases gravconst) as [->|[->|[->|(Ha & Hb & Hc)]]];
      [exfalso; apply Hg; reflexivity ..|].
    now apply getGravConst_other. }
  unfold ParseTLE. rewrite H1, H2. cbn [Nat.eqb negb].
  unfold parseField at 1. rewrite Ho. reflexivity.
Qed.

(** When every step succeeds the parse returns [parsedRecord]. *)
Lemma ParseTLE_all_pass (line1 line2 gravconst : string) :
  String.length line1 = 69%nat ->
  String.length line2 = 69%nat ->
  snd (getGravConst gravconst) = None ->
  (forall fld, fieldError atof atoi trim fld line1 line2 = None) ->
  ParseTLE atof atoi trim line1 line2 gravconst
  = (parsedRecord atof atoi trim line1 line2 gravconst, None).
Proof.
  intros H1 H2 Hg Hall.
  enter_parse H1 H2 Hg.
  pass_field (Hall Fsatnum). pass_field (Hall Fepochyr).
  pass_field (Hall Fepochdays). pass_field (Hall Fndot).
  pass_field (Hall Fnddot). pass_field (Hall Fbstar).
  pass_field (Hall Finclo). pass_field (Hall Fnodeo).
  pass_field (Hall Fecco). pass_field (Hall Fargpo).
  pass_field (Hall Fmo). pass_field (Hall Fno).
  reflexivity.
Qed.

(** A parse without an error has passed every check and every field. *)
Lemma ParseTLE_success_inv (line1 line2 gravconst : string) :
  snd (ParseTLE atof atoi trim line1 line2 gravconst) = None ->
  String.length line1 = 69%nat /\
  String.length line2 = 69%nat /\
  snd (getGravConst gravconst) = None /\
  (forall fld, fieldError atof atoi trim fld line1 line2 = None).
Proof.
  intros Hok.
  assert (H1 : String.length line1 = 69%nat).
  { destruct (Nat.eqb_spec (String.length line1) 69) as [H|H]; [exact H|].
    exfalso. revert Hok. unfold ParseTLE.
    destruct (Nat.eqb_spec (String.length line1) 69); [contradiction|].
    cbn. discriminate. }
  assert (H2 : String.length line2 = 69%nat).
  { destruct (Nat.eqb_spec (String.length line2) 69) as [H|H]; [exact H|].
    exfalso. revert Hok. unfold ParseTLE. rewrite H1. cbn [Nat.eqb negb].
    destruct (Nat.eqb_spec (String.length line2) 69); [contradiction|].
    cbn. discriminate. }
  assert (Hg : snd (getGravConst gravconst) = None).
  { destruct (snd (getGravConst gravconst)) as [e|] eqn:He; [|reflexivity].
    exfalso. revert Hok. unfold ParseTLE. rewrite H1, H2. cbn [Nat.eqb negb].
    rewrite (parseField_err _ _ _ _ _ e He). cbn. discriminate. }
  repeat (split; [assumption|]).
  intros fld.
  destruct (fieldError atof atoi trim fld line1 line2) as [e|] eqn:He;
    [|reflexivity].
  exfalso.
  destruct (first_failing_field atof atoi trim line1 line2) as (g & c & Hf & Hp).
  { exists fld. rewrite He. discriminate. }
  destruct (ParseTLE_stops_at atof atoi trim line1 line2 gravconst g c
              H1 H2 Hg Hp Hf) as (Herr & _).
  rewrite Herr in Hok. discriminate.
Qed.

(** [ParseTLE] returns without an error exactly when both lines have 69
    bytes, the gravity model is known and every one of the twelve fields
    parses. *)
Theorem ParseTLE_succeeds_iff (line1 line2 gravconst : string) :
  snd (ParseTLE atof atoi trim line1 line2 gravconst) = None <->
  String.length line1 = 69%nat /\
  String.length line2 = 69%nat /\
  snd (getGravConst gravconst) = None /\
  (forall fld, fieldError atof atoi trim fld line1 line2 = None).
Proof.
  split; [apply ParseTLE_success_inv|].
  intros (H1 & H2 & Hg & Hall).
  now rewrite (ParseTLE_all_pass line1 line2 gravconst H1 H2 Hg Hall).
Qed.

(** A parse without an error returns the record that holds the two lines
    as given, the error code 0, the gravity constants of the model, for
    each field the value that its parser returned for the text of its
    columns, and a Julian epoch that is still zero. *)
Theorem ParseTLE_success_record (line1 line2 gravconst : string) :
  snd (ParseTLE atof atoi trim line1 line2 gravconst) = None ->
  fst (ParseTLE atof atoi trim line1 line2 gravconst)
  = mkSatellite line1 line2 0%Z (fst (getGravConst gravconst))
      (fst (atoi (trim (slice line1 2 7))))
      (fst (atoi (slice line1 18 20)))
      (fst (parseFloat atof (fieldText trim Fepochdays line1 line2)))
      (fst (parseFloat atof (fieldText trim Fndot line1 line2)))
      (fst (parseFloat atof (fieldText trim Fnddot line1 line2)))
      (fst (parseFloat atof (fieldText trim Fbstar line1 line2)))
      (fst (parseFloat atof (fieldText trim Finclo line1 line2)))
      (fst (parseFloat atof (fieldText trim Fnodeo line1 line2)))
      (fst (parseFloat atof (fieldText trim Fecco line1 line2)))
      (fst (parseFloat atof (fieldText trim Fargpo line1 line2)))
      (fst (parseFloat atof (fieldText trim Fmo line1 line2)))
      (fst (parseFloat atof (fieldText trim Fno line1 line2)))
      (mkJDay 0 0).
Proof.
  intros Hok.
  destruct (ParseTLE_success_inv line1 line2 gravconst Hok)
    as (H1 & H2 & Hg & Hall).
  now rewrite (ParseTLE_all_pass line1 line2 gravconst H1 H2 Hg Hall).
Qed.

(** What [NewSatFromTLE] returns when the parse succeeds and the day of
    the year is converted. *)
Lemma NewSatFromTLE_returns (line1 line2 gravconst : string) (sat : Satellite)
  (mon day hr min sec : R) :
  ParseTLE atof atoi trim line1 line2 gravconst = (sat, None) ->
  days2mdhms (epochYear (epochyr sat)) (epochdays sat)
  = Returns (mon, day, hr, min, sec) ->
  NewSatFromTLE atof atoi trim init line1 line2 gravconst
  = Returns
      (init "i"%string
         (Subtract
            (NewJDay (epochYear (epochyr sat)) (trunc mon) (trunc day)
               (trunc hr) (trunc min) sec) 2433281.5)
         (set_jdsatepoch
            (NewJDay (epochYear (epochyr sat)) (trunc mon) (trunc day)
               (trunc hr) (trunc min) sec) (convertUnits sat)),
       None).
Proof.
  intros Hp Hd. unfold NewSatFromTLE. rewrite Hp.
  cbn [epochyr epochdays set_no set_ndot set_nddot set_inclo set_nodeo
       set_argpo set_mo].
  rewrite Hd. reflexivity.
Qed.

(** The three ways a call of [NewSatFromTLE] ends: with the error of the
    parse and its record, untouched; with a panic, exactly when the parse
    succeeds and the whole part of the epoch day exceeds the days of the
    epoch year; otherwise with a record handed to the initialiser and no
    error. *)
Theorem NewSatFromTLE_outcome (line1 line2 gravconst : string) :
  NewSatFromTLE atof atoi trim init line1 line2 gravconst <> OutOfFuel /\
  (forall e : error,
     snd (ParseTLE atof atoi trim line1 line2 gravconst) = Some e ->
     NewSatFromTLE atof atoi trim init line1 line2 gravconst
     = Returns (fst (ParseTLE atof atoi trim line1 line2 gravconst), Some e)) /\
  (NewSatFromTLE atof atoi trim init line1 line2 gravconst
   = Panics "index out of range" <->
   snd (ParseTLE atof atoi trim line1 line2 gravconst) = None /\
   (yearDays
      (epochYear (epochyr (fst (ParseTLE atof atoi trim line1 line2 gravconst))))
    < Int_part
        (epochdays (fst (ParseTLE atof atoi trim line1 line2 gravconst))))%Z) /\
  (snd (ParseTLE atof atoi trim line1 line2 gravconst) = None ->
   (Int_part (epochdays (fst (ParseTLE atof atoi trim line1 line2 gravconst)))
    <= yearDays
         (epochYear
            (epochyr (fst (ParseTLE atof atoi trim line1 line2 gravconst)))))%Z ->
   exists conv : Satellite,
     NewSatFromTLE atof atoi trim init line1 line2 gravconst
     = Returns (init "i"%string (Subtract (jdsatepoch conv) 2433281.5) conv,
                None)).
Proof.
  destruct (ParseTLE atof atoi trim line1 line2 gravconst) as [sat err] eqn:Hp.
  cbn [fst snd].
  destruct err as [e|].
  - pose proof (NewSatFromTLE_error atof atoi trim init line1 line2 gravconst e)
      as He.
    rewrite Hp in He. cbn [fst snd] in He. specialize (He eq_refl).
    rewrite He.
    split; [discriminate|]. split; [intros e' [= <-]; reflexivity|].
    split; [|discriminate].
    split; [discriminate | intros [H _]; discriminate].
  - destruct (days2mdhms_outcome (epochYear (epochyr sat)) (epochdays sat))
      as [Hfuel Hpanic].
    destruct (days2mdhms (epochYear (epochyr sat)) (epochdays sat))
      as [[[[[mon day] hr] min] sec]|msg|] eqn:Hd; [| |contradiction].
    + rewrite (NewSatFromTLE_returns line1 line2 gravconst sat mon day hr min
                 sec Hp Hd).
      split; [discriminate|]. split; [discriminate|].
      split.
      * split; [discriminate|].
        intros [_ H]. apply Hpanic in H. discriminate.
      * intros _ _.
        exists (set_jdsatepoch
                  (NewJDay (epochYear (epochyr sat)) (trunc mon) (trunc day)
                     (trunc hr) (trunc min) sec) (convertUnits sat)).
        reflexivity.
    + rewrite (NewSatFromTLE_panics atof atoi trim init line1 line2 gravconst
                 sat msg Hp Hd).
      split; [discriminate|]. split; [discriminate|].
      destruct (Z_le_gt_dec (Int_part (epochdays sat))
                  (yearDays (epochYear (epochyr sat)))) as [Hle|Hgt].
      * exfalso.
        destruct (days2mdhms_returns (epochYear (epochyr sat)) (epochdays sat)
                    Hle) as (m & c & _ & _ & _ & _ & Hr).
        rewrite Hr in Hd. discriminate.
      * assert (Hm : msg = "index out of range"%string).
        { assert (H : @Panics (R * R * R * R * R) msg
                      = Panics "index out of range") by (apply Hpanic; lia).
          now injection H. }
        subst msg.
        split; [split; [intros _; split; [reflexivity | lia] | reflexivity]|].
        intros _ Hle. lia.
Qed.

End ParserMore.

(** On the way to the initialiser the record of a successful parse has
    its mean motion and the two derivatives brought from revolutions per
    day to radians per minute, its four angles from degrees to radians,
    and its Julian epoch set to 1 January, 0h, of the epoch year plus
    the epoch day less one; the eccentricity, the drag term, the epoch
    fields, the catalog number, the lines and the gravity constants stay
    as parsed. *)
Theorem NewSatFromTLE_units (atof : string -> float64 * option error)
  (atoi : string -> Z * option error) (trim : string -> string)
  (init : string -> float64 -> Satellite -> Satellite)
  (line1 line2 gravconst : string) (sat : Satellite) :
  ParseTLE atof atoi trim line1 line2 gravconst = (sat, None) ->
  (Int_part (epochdays sat) <= yearDays (epochYear (epochyr sat)))%Z ->
  exists conv : Satellite,
    NewSatFromTLE atof atoi trim init line1 line2 gravconst
    = Returns (init "i"%string (Subtract (jdsatepoch conv) 2433281.5) conv,
               None) /\
    no conv = no sat * (2 * PI / 1440) /\
    ndot conv = ndot sat * (2 * PI / (1440 * 1440)) /\
    nddot conv = nddot sat * (2 * PI / (1440 * 1440 * 1440)) /\
    inclo conv = inclo sat * (PI / 180) /\
    nodeo conv = nodeo sat * (PI / 180) /\
    argpo conv = argpo sat * (PI / 180) /\
    mo conv = mo sat * (PI / 180) /\
    ecco conv = ecco sat /\ bstar conv = bstar sat /\
    epochdays conv = epochdays sat /\ epochyr conv = epochyr sat /\
    satnum conv = satnum sat /\ Line1 conv = Line1 sat /\
    Line2 conv = Line2 sat /\ Whichconst conv = Whichconst sat /\
    Single (jdsatepoch conv)
    = Single (NewJDay (epochYear (epochyr sat)) 1 1 0 0 0) + epochdays sat - 1.
Proof.
  intros Hp Hd.
  destruct (julian_date_of_day (epochYear (epochyr sat)) (epochdays sat) Hd)
    as (mon & day & hr & min & sec & Hr & HDay & HFrac).
  exists (set_jdsatepoch
            (NewJDay (epochYear (epochyr sat)) (trunc mon) (trunc day)
               (trunc hr) (trunc min) sec) (convertUnits sat)).
  split.
  { exact (NewSatFromTLE_returns atof atoi trim init line1 line2 gravconst sat
             mon day hr min sec Hp Hr). }
  cbn [convertUnits set_jdsatepoch set_no set_ndot set_nddot set_inclo set_nodeo
       set_argpo set_mo no ndot nddot inclo nodeo argpo mo ecco bstar epochdays
       epochyr satnum Line1 Line2 Whichconst jdsatepoch].
  rewrite XPDOTP_eq, DEG2RAD_eq.
  replace 1440.0 with 1440 by lra.
  pose proof PI_neq0 as Hpi.
  repeat (split; [first [reflexivity | unfold float64; field; exact Hpi]|]).
  unfold Single. rewrite HDay, HFrac.
  assert (Hf0 : Fraction (NewJDay (epochYear (epochyr sat)) 1 1 0 0 0) = 0)
    by (unfold NewJDay; cbn [Fraction]; lra).
  rewrite Hf0. unfold float64. lra.
Qed.

Lemma NewSatFromTLE_units_witness :
  ParseTLE Decimal.ParseFloat Decimal.ParseInt Decimal.TrimSpace
    issLine1 issLine2 "wgs72" = (issParsed, None) /\
  (Int_part (epochdays issParsed) <= yearDays (epochYear (epochyr issParsed)))%Z /\
  exists conv : Satellite,
    NewSatFromTLE Decimal.ParseFloat Decimal.ParseInt Decimal.TrimSpace
      Decimal.sgp4init issLine1 issLine2 "wgs72"
    = Returns (Decimal.sgp4init "i"%string
                 (Subtract (jdsatepoch conv) 2433281.5) conv, None) /\
    no conv = no issParsed * (2 * PI / 1440) /\
    ndot conv = ndot issParsed * (2 * PI / (1440 * 1440)) /\
    nddot conv = nddot issParsed * (2 * PI / (1440 * 1440 * 1440)) /\
    inclo conv = inclo issParsed * (PI / 180) /\
    nodeo conv = nodeo issParsed * (PI / 180) /\
    argpo conv = argpo issParsed * (PI / 180) /\
    mo conv = mo issParsed * (PI / 180) /\
    ecco conv = ecco issParsed /\ bstar conv = bstar issParsed /\
    epochdays conv = epochdays issParsed /\ epochyr conv = epochyr issParsed /\
    satnum conv = satnum issParsed /\ Line1 conv = Line1 issParsed /\
    Line2 conv = Line2 issParsed /\ Whichconst conv = Whichconst issParsed /\
    Single (jdsatepoch conv)
    = Single (NewJDay (epochYear (epochyr issParsed)) 1 1 0 0 0)
      + epochdays issParsed - 1.
Proof.
  assert (Hp : ParseTLE Decimal.ParseFloat Decimal.ParseInt Decimal.TrimSpace
                 issLine1 issLine2 "wgs72" = (issParsed, None)).
  { apply injective_projections; [reflexivity | vm_compute; reflexivity]. }
  assert (He : epochdays issParsed = 264.51782528) by (vm_compute; lra).
  assert (Hy : epochYear (epochyr issParsed) = 2008%Z)
    by (vm_compute; reflexivity).
  assert (Hd : (Int_part (epochdays issParsed)
                <= yearDays (epochYear (epochyr issParsed)))%Z).
  { rewrite He, Hy, Int_part_epoch_2008. change (yearDays 2008) with 366%Z. lia. }
  split; [exact Hp|]. split; [exact Hd|].
  exact (NewSatFromTLE_units Decimal.ParseFloat Decimal.ParseInt
           Decimal.TrimSpace Decimal.sgp4init issLine1 issLine2 "wgs72"
           issParsed Hp Hd).
Defined.

Lemma ParseTLE_length_check_witness :
  (String.length "1 25544U" <> 69%nat \/ String.length issLine2 <> 69%nat) /\
  ParseTLE Decimal.ParseFloat Decimal.ParseInt Decimal.TrimSpace
    "1 25544U" issLine2 "wgs72"
  = (zeroSatellite,
     Some (if (String.length "1 25544U" =? 69)%nat
           then ("Line2 length should be 69 but was "
                 ++ itoa (String.length issLine2))%string
           else ("Line1 length should be 69 but was "
                 ++ itoa (String.length "1 25544U"))%string)).
Proof.
  assert (H : String.length "1 25544U" <> 69%nat
              \/ String.length issLine2 <> 69%nat)
    by (left; discriminate).
  split; [exact H|].
  exact (ParseTLE_length_check Decimal.ParseFloat Decimal.ParseInt
           Decimal.TrimSpace "1 25544U" issLine2 "wgs72" H).
Defined.

Lemma ParseTLE_unknown_gravity_witness :
  String.length issLine1 = 69%nat /\
  String.length issLine2 = 69%nat /\
  snd (getGravConst "wgs99") <> None /\
  ParseTLE Decimal.ParseFloat Decimal.ParseInt Decimal.TrimSpace
    issLine1 issLine2 "wgs99"
  = (mkSatellite issLine1 issLine2 0%Z (mkGravConst 0 0 0 0 0 0 0 0 0)
       0%Z 0%Z 0 0 0 0 0 0 0 0 0 0 (mkJDay 0 0),
     Some ("Error on getting gravconst: " ++ "wgs99"
           ++ " is not a valid gravity model")%string).
Proof.
  assert (H1 : String.length issLine1 = 69%nat) by reflexivity.
  assert (H2 : String.length issLine2 = 69%nat) by reflexivity.
  assert (Hg : snd (getGravConst "wgs99") <> None) by discriminate.
  split; [exact H1|]. split; [exact H2|]. split; [exact Hg|].
  exact (ParseTLE_unknown_gravity Decimal.ParseFloat Decimal.ParseInt
           Decimal.TrimSpace issLine1 issLine2 "wgs99" H1 H2 Hg).
Defined.

Lemma ParseTLE_success_record_witness :
  snd (ParseTLE Decimal.ParseFloat Decimal.ParseInt Decimal.TrimSpace
         issLine1 issLine2 "wgs72") = None /\
  fst (ParseTLE Decimal.ParseFloat Decimal.ParseInt Decimal.TrimSpace
         issLine1 issLine2 "wgs72")
  = mkSatellite issLine1 issLine2 0%Z (fst (getGravConst "wgs72"))
      (fst (Decimal.ParseInt (Decimal.TrimSpace (slice issLine1 2 7))))
      (fst (Decimal.ParseInt (slice issLine1 18 20)))
      (fst (parseFloat Decimal.ParseFloat
              (fieldText Decimal.TrimSpace Fepochdays issLine1 issLine2)))
      (fst (parseFloat Decimal.ParseFloat
              (fieldText Decimal.TrimSpace Fndot issLine1 issLine2)))
      (fst (parseFloat Decimal.ParseFloat
              (fieldText Decimal.TrimSpace Fnddot issLine1 issLine2)))
      (fst (parseFloat Decimal.ParseFloat
              (fieldText Decimal.TrimSpace Fbstar issLine1 issLine2)))
      (fst (parseFloat Decimal.ParseFloat
              (fieldText Decimal.TrimSpace Finclo issLine1 issLine2)))
      (fst (parseFloat Decimal.ParseFloat
              (fieldText Decimal.TrimSpace Fnodeo issLine1 issLine2)))
      (fst (parseFloat Decimal.ParseFloat
              (fieldText Decimal.TrimSpace Fecco issLine1 issLine2)))
      (fst (parseFloat Decimal.ParseFloat
              (fieldText Decimal.TrimSpace Fargpo issLine1 issLine2)))
      (fst (parseFloat Decimal.ParseFloat
              (fieldText Decimal.TrimSpace Fmo issLine1 issLine2)))
      (fst (parseFloat Decimal.ParseFloat
              (fieldText Decimal.TrimSpace Fno issLine1 issLine2)))
      (mkJDay 0 0).
Proof.
  assert (H : snd (ParseTLE Decimal.ParseFloat Decimal.ParseInt
                     Decimal.TrimSpace issLine1 issLine2 "wgs72") = None)
    by (vm_compute; reflexivity).
  split; [exact H|].
  exact (ParseTLE_success_record Decimal.ParseFloat Decimal.ParseInt
           Decimal.TrimSpace issLine1 issLine2 "wgs72" H).
Defined.

Lemma ECIToLookAngles_azimuth_range_witness :
  fst (fst (topocentric
              (rangeVector (mkVector3 0 0 1000) equatorObserver 2451179.5
                 (fst (getGravConst "wgs84")))
              equatorObserver 2451179.5)) <> 0 /\
  let r := rangeVector (mkVector3 0 0 1000) equatorObserver 2451179.5
             (fst (getGravConst "wgs84")) in
  let topS := fst (fst (topocentric r equatorObserver 2451179.5)) in
  let look := ECIToLookAngles (mkVector3 0 0 1000) equatorObserver 2451179.5
                (fst (getGravConst "wgs84")) in
  0 <= Az look < 2 * PI /\
  (0 < topS <-> PI / 2 < Az look < 3 * PI / 2).
Proof.
  assert (H : fst (fst (topocentric
                          (rangeVector (mkVector3 0 0 1000) equatorObserver
                             2451179.5 (fst (getGravConst "wgs84")))
                          equatorObserver 2451179.5)) <> 0).
  { set (r := rangeVector (mkVector3 0 0 1000) equatorObserver 2451179.5
                (fst (getGravConst "wgs84"))).
    assert (Hz : Z_ r = 1000).
    { unfold r, rangeVector, LLAToECI, equatorObserver, Sin;
        cbn [Z_ LatLong_ Latitude AltitudeKm].
      rewrite sin_0. unfold float64; ring. }
    unfold topocentric, equatorObserver, Sin, Cos;
      cbn [fst snd LatLong_ Latitude Longitude].
    rewrite sin_0, cos_0, Hz. unfold float64. lra. }
  split; [exact H|].
  exact (ECIToLookAngles_azimuth_range (mkVector3 0 0 1000) equatorObserver
           2451179.5 (fst (getGravConst "wgs84")) H).
Defined.
